(** * reddish: the posts controller (src/server/controllers/posts.js)

    A shallow embedding of the listing, comments, create, edit and delete
    routes of the Express controller and of the two helpers they call, with
    the properties of the pagination window, of the submission validator
    and of the handlers.

    Modelling conventions.
    - JavaScript numbers that the contract restricts to integers (page,
      limit, counts, status codes) are [Z]; NaN and fractions are outside the
      model.
    - An object property that may be [undefined] is an [option].
    - Identifiers (Mongo ObjectIds, compared in the source through
      [toString()]) are strings in canonical form; [findById] is a map
      lookup. A route whose URL carries an id takes the ObjectId that the
      segment is cast to; the segment as the URL spells it, which need not
      be the canonical form, is [segment env id].
    - A handler is a function on a world: the store, the answers sent so
      far and the writes completed so far. It ends normally or by a throw
      (a rejected [await], a validation failure, a TypeError).
    - Every [await] on the database may reject; which ones do is an oracle
      of the environment ([Env]), like the answer of the media host, the
      order in which a query returns posts of the same date, and what the
      Post schema (not among the sources) declares for [updatedAt]. *)

From Stdlib Require Import ZArith Lia.
From stdpp Require Import base option list strings gmap sorting.

Local Open Scope string_scope.
Local Open Scope list_scope.
Local Open Scope Z_scope.

(** ** Pagination window (utils/paginateResults) *)

Record PageRef := { page : Z; limit : Z }.

Record PageLinks := { previous : option PageRef; next : option PageRef }.

Record Paginated := { startIndex : Z; endIndex : Z; results : PageLinks }.

(** Modelled from the spec: [utils/paginateResults.js] is not among the
    sources. Section 4.1 gives the contract: [startIndex = (page-1)*limit],
    [endIndex = page*limit], [previous = {page: page-1, limit}] iff
    [startIndex > 0], [next = {page: page+1, limit}] iff
    [endIndex < totalCount]. The shape of the returned object follows the
    caller, which reads [paginated.startIndex], [paginated.results.previous]
    and [paginated.results.next]. *)
Definition paginateResults (pg lim totalCount : Z) : Paginated :=
  let startIndex := (pg - 1) * lim in
  let endIndex := pg * lim in
  {| startIndex := startIndex;
     endIndex := endIndex;
     results :=
       {| previous :=
            if 0 <? startIndex then Some {| page := pg - 1; limit := lim |}
            else None;
          next :=
            if endIndex <? totalCount then Some {| page := pg + 1; limit := lim |}
            else None |} |}.

(** ** Submission validator (utils/postTypeValidator) *)

Inductive FailKind := InvalidPostType | EmptySubmission.

(** The object the validator returns on success. The controller spreads it
    into the [Post] constructor and reads [textSubmission] and
    [linkSubmission] from it; [vfPostType] stands for a [postType] property
    the object may carry into the spread. *)
Record ValidatedFields := {
  vfPostType : option string;
  vfTextSubmission : option string;
  vfLinkSubmission : option string;
  vfImageSubmission : option string
}.

Inductive Validation := Valid (vf : ValidatedFields) | Invalid (k : FailKind).

Definition Validator : Type :=
  option string → option string → option string → option string → Validation.

(** [value === 'literal'] on a possibly undefined string. *)
Definition strictEq (value : option string) (literal : string) : bool :=
  match value with
  | Some s => String.eqb s literal
  | None => false
  end.

Section validator.
(** What counts as a blank field and how a field is normalized is not
    fixed by the specification; both are parameters. *)
Variable blank : string → bool.
Variable normalize : string → string.

Definition parseSubmission (field : option string) : option string :=
  match field with
  | None => None
  | Some s => if blank s then None else Some (normalize s)
  end.

(** Modelled from the spec: [utils/postTypeValidator.js] is not among the
    sources. Section 4.2: "given a declared postType and three optional
    candidate fields, return the normalized field for that type or fail
    with an InvalidPostType kind if the type is not one of the three
    recognized values, or an EmptySubmission kind if the field
    corresponding to the declared type is missing/blank. Exactly one
    output field is ever populated." *)
Definition postTypeValidator : Validator :=
  fun postType textSubmission linkSubmission imageSubmission =>
    if strictEq postType "Text" then
      match parseSubmission textSubmission with
      | Some t => Valid {| vfPostType := None; vfTextSubmission := Some t;
                           vfLinkSubmission := None; vfImageSubmission := None |}
      | None => Invalid EmptySubmission
      end
    else if strictEq postType "Link" then
      match parseSubmission linkSubmission with
      | Some l => Valid {| vfPostType := None; vfTextSubmission := None;
                           vfLinkSubmission := Some l; vfImageSubmission := None |}
      | None => Invalid EmptySubmission
      end
    else if strictEq postType "Image" then
      match parseSubmission imageSubmission with
      | Some i => Valid {| vfPostType := None; vfTextSubmission := None;
                           vfLinkSubmission := None; vfImageSubmission := Some i |}
      | None => Invalid EmptySubmission
      end
    else Invalid InvalidPostType.
End validator.

(** The reading of "blank" used in the examples: the empty string (the one
    falsy JavaScript string); no normalization. *)
Definition isEmpty (s : string) : bool :=
  match s with EmptyString => true | String _ _ => false end.

Definition validatorDefault : Validator := postTypeValidator isEmpty id.

(** ** Documents and the data store *)

Abbreviation Id := string.

Record Reply := { repliedBy : Id }.
Record Comment := { commentedBy : Id; replies : list Reply }.

(** [post.imageSubmission] holds the raw payload the constructor was given
    until the controller replaces it by [{imageLink, imageId}]. *)
Inductive ImageSubmission :=
| RawImage (payload : string)
| UploadedImage (imageLink imageId : string).

(** A stored date, in milliseconds since the epoch. *)
Inductive TimeVal := Millis (t : Z).

Module Post.
Record t := mk {
  _id : Id;
  title : option string;
  subreddit : Id;
  author : Id;
  upvotedBy : list Id;
  pointsCount : Z;
  postType : option string;
  textSubmission : option string;
  linkSubmission : option string;
  imageSubmission : option ImageSubmission;
  comments : list Comment;
  createdAt : Z;
  updatedAt : TimeVal
}.

Definition set_textSubmission (v : option string) (p : t) : t :=
  mk (_id p) (title p) (subreddit p) (author p) (upvotedBy p) (pointsCount p)
     (postType p) v (linkSubmission p) (imageSubmission p) (comments p)
     (createdAt p) (updatedAt p).

Definition set_linkSubmission (v : option string) (p : t) : t :=
  mk (_id p) (title p) (subreddit p) (author p) (upvotedBy p) (pointsCount p)
     (postType p) (textSubmission p) v (imageSubmission p) (comments p)
     (createdAt p) (updatedAt p).

Definition set_imageSubmission (v : option ImageSubmission) (p : t) : t :=
  mk (_id p) (title p) (subreddit p) (author p) (upvotedBy p) (pointsCount p)
     (postType p) (textSubmission p) (linkSubmission p) v (comments p)
     (createdAt p) (updatedAt p).

Definition set_comments (v : list Comment) (p : t) : t :=
  mk (_id p) (title p) (subreddit p) (author p) (upvotedBy p) (pointsCount p)
     (postType p) (textSubmission p) (linkSubmission p) (imageSubmission p)
     v (createdAt p) (updatedAt p).
End Post.

Module Subreddit.
Record t := mk { _id : Id; subredditName : string; posts : list Id }.

Definition set_posts (v : list Id) (s : t) : t :=
  mk (_id s) (subredditName s) v.
End Subreddit.

Module User.
Record t := mk {
  _id : Id;
  username : string;
  posts : list Id;
  postKarma : Z  (* karmaPoints.postKarma *)
}.

Definition set_posts (v : list Id) (u : t) : t :=
  mk (_id u) (username u) v (postKarma u).

Definition set_postKarma (v : Z) (u : t) : t :=
  mk (_id u) (username u) (posts u) v.
End User.

Record Store := {
  postDocs : gmap Id Post.t;
  subredditDocs : gmap Id Subreddit.t;
  userDocs : gmap Id User.t
}.

(** Every document is stored under its own [_id]. *)
Definition store_wf (st : Store) : Prop :=
  map_Forall (fun k p => Post._id p = k) (postDocs st) ∧
  map_Forall (fun k s => Subreddit._id s = k) (subredditDocs st) ∧
  map_Forall (fun k u => User._id u = k) (userDocs st).

#[export] Instance store_wf_dec st : Decision (store_wf st).
Proof. unfold store_wf. apply _. Defined.

(** ** Requests, responses and the handler monad *)

(** A post with its [author] and [subreddit] references populated
    ([username] and [subredditName] of the referenced document, [None] when
    the referenced document does not exist). *)
Record Populated := {
  doc : Post.t;
  authorUsername : option string;
  subredditSubredditName : option string
}.

Inductive Body :=
| JsonMessage (message : string)
| JsonPost (p : Post.t)
| JsonPopulated (p : Populated)
| JsonPage (prev : option PageRef) (items : list Populated) (nxt : option PageRef)
| NoBody.

Record Response := { status : Z; body : Body }.

(** Completed writes, in the order in which they complete. *)
Inductive Write :=
| PostSaved (id : Id)
| PostDeleted (id : Id)
| SubredditSaved (id : Id)
| UserSaved (id : Id).

Inductive Exn :=
| ValidationFailure (k : FailKind)
| TypeError
| DbFailure
| UploadFailure (message : string)
| CastError.

Inductive Completion (A : Type) :=
| Done (a : A)
| Thrown (e : Exn).
Arguments Done {A} a.
Arguments Thrown {A} e.

Record World := {
  db : Store;
  sent : list Response;
  writes : list Write;
  awaits : nat  (* database calls awaited so far *)
}.

Definition Handler (A : Type) : Type := World → Completion A * World.

#[export] Instance handler_ret : MRet Handler :=
  fun A a w => (Done a, w).

#[export] Instance handler_bind : MBind Handler :=
  fun A B f m w =>
    match m w with
    | (Done a, w') => f a w'
    | (Thrown e, w') => (Thrown e, w')
    end.

Definition throw {A} (e : Exn) : Handler A := fun w => (Thrown e, w).

(** [res.status(code).send(body)] / [.json(body)] / [.end()]. *)
Definition res_send (code : Z) (b : Body) : Handler unit :=
  fun w =>
    (Done (),
     {| db := db w; sent := sent w ++ [{| status := code; body := b |}];
        writes := writes w; awaits := awaits w |}).

Inductive UploadResult :=
| Uploaded (url public_id : string)
| UploadFailed (message : string).

(** What the handlers take from their surroundings:
    - which awaited database calls reject (by position in the request);
    - what the media host answers;
    - the document [new Post({})] would be (schema defaults and the fresh
      [_id]; models/post.js is not among the sources);
    - [segment id]: [req.params.id] as the URL of the request spells it,
      for the ObjectId [id] that [findById] and [findByIdAndDelete] cast it
      to (an ObjectId string is accepted in upper case too, while
      [toString()] always gives the canonical form);
    - whether the Post schema declares [updatedAt] as a Date;
    - [tieRank n]: the order in which the query awaited at position [n]
      returns documents that the sort does not tell apart (a smaller rank
      comes first). *)
Record Env := {
  rejects : nat → bool;
  upload : option string → UploadResult;
  blankPost : Post.t;
  segment : Id → string;
  updatedAtIsDate : bool;
  tieRank : nat → Id → nat
}.

Record CreateBody := {
  cb_title : option string;
  cb_subreddit : option Id;
  cb_postType : option string;
  cb_textSubmission : option string;
  cb_linkSubmission : option string;
  cb_imageSubmission : option string
}.

Record EditBody := {
  eb_textSubmission : option string;
  eb_linkSubmission : option string;
  eb_imageSubmission : option string
}.

Definition createdAt_desc (p q : Post.t) : Prop :=
  Post.createdAt q ≤ Post.createdAt p.

#[export] Instance createdAt_desc_dec p q : Decision (createdAt_desc p q).
Proof. unfold createdAt_desc. apply _. Defined.

(** [.limit(n)]: zero means no limit, a negative number its absolute value. *)
Definition limitTo {A} (n : Z) (l : list A) : list A :=
  if n =? 0 then l else take (Z.abs_nat n) l.

Definition populate (st : Store) (p : Post.t) : Populated :=
  {| doc := p;
     authorUsername := User.username <$> userDocs st !! Post.author p;
     subredditSubredditName :=
       Subreddit.subredditName <$> subredditDocs st !! Post.subreddit p |}.

(** [.select('-comments -textSubmission')] *)
Definition selectListing (p : Post.t) : Post.t :=
  Post.set_textSubmission None (Post.set_comments [] p).

(** The order of [.sort({createdAt: -1})]: a later post comes first; the
    sort key does not order two posts of the same date, which come in the
    order [rank] the database gives them for this query. *)
Definition listedBefore (rank : Id → nat) (a b : Id * Post.t) : Prop :=
  Post.createdAt b.2 < Post.createdAt a.2 ∨
  (Post.createdAt b.2 = Post.createdAt a.2 ∧ (rank a.1 ≤ rank b.1)%nat).

#[export] Instance listedBefore_dec rank a b : Decision (listedBefore rank a b).
Proof. unfold listedBefore. apply _. Defined.

(** All posts, newest first, for one query. *)
Definition newestFirst (rank : Id → nat) (st : Store) : list Post.t :=
  (merge_sort (listedBefore rank) (map_to_list (postDocs st))).*2.

(** The window of the listing: skip, then limit, then select and populate. *)
Definition listingWindow (rank : Id → nat) (st : Store) (lim skp : Z)
  : list Populated :=
  populate st ∘ selectListing
    <$> limitTo lim (drop (Z.to_nat skp) (newestFirst rank st)).

Section handlers.
Variable validator : Validator.
Variable env : Env.

(** An awaited database call: it either rejects, leaving the store as it
    was, or runs [op] on the store and records the writes it completed. *)
Definition dbCall {A} (op : Store → Completion A * Store * list Write)
  : Handler A :=
  fun w =>
    let n := awaits w in
    if rejects env n then
      (Thrown DbFailure,
       {| db := db w; sent := sent w; writes := writes w; awaits := S n |})
    else
      let '(r, st, ws) := op (db w) in
      (r, {| db := st; sent := sent w; writes := writes w ++ ws;
             awaits := S n |}).

Definition Post_findById (id : Id) : Handler (option Post.t) :=
  dbCall (fun st => (Done (postDocs st !! id), st, [])).

Definition User_findById (id : Id) : Handler (option User.t) :=
  dbCall (fun st => (Done (userDocs st !! id), st, [])).

Definition Subreddit_findById (id : option Id) : Handler (option Subreddit.t) :=
  dbCall (fun st =>
    (Done (match id with Some i => subredditDocs st !! i | None => None end),
     st, [])).

Definition Post_countDocuments : Handler Z :=
  dbCall (fun st => (Done (Z.of_nat (size (postDocs st))), st, [])).

(** [Post.find({}).sort({createdAt: -1}).select(..).limit(lim).skip(skp)
    .populate(..).populate(..)]; the database applies the skip before the
    limit and refuses a negative skip. *)
Definition Post_findListing (lim skp : Z) : Handler (list Populated) :=
  fun w =>
    dbCall (fun st =>
      if skp <? 0 then (Thrown DbFailure, st, [])
      else (Done (listingWindow (tieRank env (awaits w)) st lim skp), st, []))
      w.

Definition Post_save (p : Post.t) : Handler Post.t :=
  dbCall (fun st =>
    (Done p,
     {| postDocs := <[Post._id p := p]> (postDocs st);
        subredditDocs := subredditDocs st; userDocs := userDocs st |},
     [PostSaved (Post._id p)])).

Definition Subreddit_save (s : Subreddit.t) : Handler unit :=
  dbCall (fun st =>
    (Done (),
     {| postDocs := postDocs st;
        subredditDocs := <[Subreddit._id s := s]> (subredditDocs st);
        userDocs := userDocs st |},
     [SubredditSaved (Subreddit._id s)])).

Definition User_save (u : User.t) : Handler unit :=
  dbCall (fun st =>
    (Done (),
     {| postDocs := postDocs st; subredditDocs := subredditDocs st;
        userDocs := <[User._id u := u]> (userDocs st) |},
     [UserSaved (User._id u)])).

Definition Post_findByIdAndDelete (id : Id) : Handler unit :=
  dbCall (fun st =>
    (Done (),
     {| postDocs := delete id (postDocs st);
        subredditDocs := subredditDocs st; userDocs := userDocs st |},
     [PostDeleted id])).

Definition execPopulate (p : Post.t) : Handler Populated :=
  dbCall (fun st => (Done (populate st p), st, [])).

(** [await cloudinary.uploader.upload(payload, {..}, (error) => { if
    (error) return res.status(401).send({message: error.message}) })]:
    on a failure the callback answers 401 and the awaited promise
    rejects. *)
Definition cloudinary_upload (payload : option string)
  : Handler (string * string) :=
  match upload env payload with
  | Uploaded url public_id => mret (url, public_id)
  | UploadFailed message =>
      res_send 401 (JsonMessage message);; throw (UploadFailure message)
  end.

(** A call of the validator; a validation failure is thrown. *)
Definition validate (postType text link image : option string)
  : Handler ValidatedFields :=
  match validator postType text link image with
  | Valid vf => mret vf
  | Invalid k => throw (ValidationFailure k)
  end.

(** ** The routes *)

(** [router.get('/new', ..)] *)
Definition router_get_new (pg lim : Z) : Handler unit :=
  postsCount ← Post_countDocuments;
  let paginated := paginateResults pg lim postsCount in
  allPosts ← Post_findListing lim (startIndex paginated);
  res_send 200
    (JsonPage (previous (results paginated)) allPosts
              (next (results paginated))).

(** A property given as [undefined] leaves the schema default. *)
Definition orDefault {A} (given dflt : option A) : option A :=
  match given with Some _ => given | None => dflt end.

(** [new Post({title, subreddit, author: author._id,
    upvotedBy: [author._id], pointsCount: 1, ...validatedFields})] *)
Definition newPostOf (b : CreateBody) (author : User.t)
    (validatedFields : ValidatedFields) : Post.t :=
  {| Post._id := Post._id (blankPost env);
     Post.title := orDefault (cb_title b) (Post.title (blankPost env));
     Post.subreddit := default (Post.subreddit (blankPost env)) (cb_subreddit b);
     Post.author := User._id author;
     Post.upvotedBy := [User._id author];
     Post.pointsCount := 1;
     Post.postType :=
       orDefault (vfPostType validatedFields) (Post.postType (blankPost env));
     Post.textSubmission :=
       orDefault (vfTextSubmission validatedFields)
                 (Post.textSubmission (blankPost env));
     Post.linkSubmission :=
       orDefault (vfLinkSubmission validatedFields)
                 (Post.linkSubmission (blankPost env));
     Post.imageSubmission :=
       orDefault (RawImage <$> vfImageSubmission validatedFields)
                 (Post.imageSubmission (blankPost env));
     Post.comments := Post.comments (blankPost env);
     Post.createdAt := Post.createdAt (blankPost env);
     Post.updatedAt := Post.updatedAt (blankPost env) |}.

(** A template literal prints an undefined value as [undefined]. *)
Definition interpolate (v : option string) : string :=
  default "undefined" v.

(** [router.post('/', auth, ..)]; [user] is [req.user], set by [auth]. *)
Definition router_post (user : Id) (b : CreateBody) : Handler unit :=
  validatedFields ← validate (cb_postType b) (cb_textSubmission b)
                             (cb_linkSubmission b) (cb_imageSubmission b);
  author ← User_findById user;
  targetSubreddit ← Subreddit_findById (cb_subreddit b);
  match author with
  | None => res_send 404 (JsonMessage "User does not exist in database.")
  | Some author =>
  match targetSubreddit with
  | None =>
      res_send 404
        (JsonMessage ("Subreddit with ID: '" +:+ interpolate (cb_subreddit b)
                      +:+ "' does not exist in database."))
  | Some targetSubreddit =>
      let newPost := newPostOf b author validatedFields in
      newPost ←
        (if strictEq (cb_postType b) "Image" then
           uploadedImage ← cloudinary_upload (cb_imageSubmission b);
           mret (Post.set_imageSubmission
                   (Some (UploadedImage uploadedImage.1 uploadedImage.2))
                   newPost)
         else mret newPost);
      savedPost ← Post_save newPost;
      Subreddit_save
        (Subreddit.set_posts
           (Subreddit.posts targetSubreddit ++ [Post._id savedPost])
           targetSubreddit);;
      User_save
        (User.set_postKarma (User.postKarma author + 1)
           (User.set_posts (User.posts author ++ [Post._id savedPost]) author));;
      populatedPost ← execPopulate savedPost;
      res_send 201 (JsonPopulated populatedPost)
  end
  end.

(** [post.updatedAt = Date.now; await post.save()]. The assignment gives
    [updatedAt] the function [Date.now] itself, not a time. What the
    document makes of it depends on the Post schema:
    - where [updatedAt] is declared as a Date, the function cannot be cast
      to a date and the save is rejected with the cast error, nothing being
      stored;
    - where the schema has no such path, the assignment is no part of the
      document: the save stores the other changes and [updatedAt] stays as
      it was. *)
Definition Post_saveStamped (post : Post.t) : Handler Post.t :=
  if updatedAtIsDate env then dbCall (fun st => (Thrown CastError, st, []))
  else Post_save post.

(** The end of the edit route: [post.updatedAt = Date.now; await
    post.save(); res.status(202).json(post)]. *)
Definition saveEdited (post : Post.t) : Handler unit :=
  Post_saveStamped post;;
  res_send 202 (JsonPost post).

(** [router.patch('/:id', auth, ..)]; [id] is the ObjectId the URL segment
    is cast to, [segment env id] the segment itself. *)
Definition router_patch (id user : Id) (b : EditBody) : Handler unit :=
  post ← Post_findById id;
  author ← User_findById user;
  match post with
  | None =>
      res_send 404
        (JsonMessage ("Post with ID: " +:+ segment env id
                      +:+ " does not exist in database."))
  | Some post =>
  match author with
  | None => res_send 404 (JsonMessage "User does not exist in database.")
  | Some author =>
      if negb (String.eqb (Post.author post) (User._id author)) then
        res_send 401 (JsonMessage "Access is denied.")
      else
        validatedFields ← validate (Post.postType post) (eb_textSubmission b)
                                   (eb_linkSubmission b) (eb_imageSubmission b);
        if strictEq (Post.postType post) "Text" then
          saveEdited
            (Post.set_textSubmission (vfTextSubmission validatedFields) post)
        else if strictEq (Post.postType post) "Link" then
          saveEdited
            (Post.set_linkSubmission (vfLinkSubmission validatedFields) post)
        else if strictEq (Post.postType post) "Image" then
          uploadedImage ← cloudinary_upload (eb_imageSubmission b);
          saveEdited
            (Post.set_imageSubmission
               (Some (UploadedImage uploadedImage.1 uploadedImage.2)) post)
        else res_send 403 (JsonMessage "Invalid post type.")
  end
  end.

(** [router.delete('/:id', auth, ..)]. [findById] and [findByIdAndDelete]
    work on the ObjectId [id] that the URL segment is cast to; the two
    filters compare [p.toString()] with the segment itself,
    [segment env id], as does the message of the first 404. When the
    subreddit is missing, the message of the 404 answer reads
    [subreddit._id] on [null]: the argument throws before [send] is
    called. *)
Definition router_delete (id user : Id) : Handler unit :=
  post ← Post_findById id;
  author ← User_findById user;
  match post with
  | None =>
      res_send 404
        (JsonMessage ("Post with ID: " +:+ segment env id
                      +:+ " does not exist in database."))
  | Some post =>
  match author with
  | None => res_send 404 (JsonMessage "User does not exist in database.")
  | Some author =>
      if negb (String.eqb (Post.author post) (User._id author)) then
        res_send 401 (JsonMessage "Access is denied.")
      else
        subreddit ← Subreddit_findById (Some (Post.subreddit post));
        match subreddit with
        | None => throw TypeError
        | Some subreddit =>
            Post_findByIdAndDelete id;;
            Subreddit_save
              (Subreddit.set_posts
                 (filter (fun p => p ≠ segment env id) (Subreddit.posts subreddit))
                 subreddit);;
            User_save
              (User.set_posts
                 (filter (fun p => p ≠ segment env id) (User.posts author))
                 author);;
            res_send 204 NoBody
        end
  end
  end.
End handlers.

(** ** Running a handler on a store *)

Definition request (st : Store) : World :=
  {| db := st; sent := []; writes := []; awaits := 0 |}.

Definition run (h : Handler unit) (st : Store) : World := (h (request st)).2.

Definition thrown {A} (c : Completion A) : option Exn :=
  match c with
  | Done _ => None
  | Thrown e => Some e
  end.

(** The exception a request ended with, if any. *)
Definition raised (h : Handler unit) (st : Store) : option Exn :=
  thrown (h (request st)).1.

(** The status codes of the answers a request produced. *)
Definition statuses (w : World) : list Z := status <$> sent w.

(** ** Vocabulary of the statements *)

(** A field that is missing or blank. *)
Definition missingOrBlank (blank : string → bool) (field : option string) : Prop :=
  match field with
  | None => True
  | Some s => blank s = true
  end.

(** The names of the populated fields of a validated result. *)
Definition named {A} (name : string) (field : option A) : list string :=
  match field with Some _ => [name] | None => [] end.

Definition populatedFields (vf : ValidatedFields) : list string :=
  named "postType" (vfPostType vf) ++
  named "textSubmission" (vfTextSubmission vf) ++
  named "linkSubmission" (vfLinkSubmission vf) ++
  named "imageSubmission" (vfImageSubmission vf).

Definition fieldOfType (postType : option string) : string :=
  if strictEq postType "Text" then "textSubmission"
  else if strictEq postType "Link" then "linkSubmission"
  else "imageSubmission".

(** The answer of the edit and delete routes to a non-author. *)
Definition accessDenied : list Response :=
  [{| status := 401; body := JsonMessage "Access is denied." |}].

(** The reasons for which the delete route refuses a request. *)
Definition delete_refused (st : Store) (id user : Id) : Prop :=
  postDocs st !! id = None ∨
  userDocs st !! user = None ∨
  ∃ post author,
    postDocs st !! id = Some post ∧ userDocs st !! user = Some author ∧
    (Post.author post ≠ User._id author ∨
     subredditDocs st !! Post.subreddit post = None).

(** In the trace [ws], every completed write of a subreddit or of a user
    comes after the completed post write [pw]. *)
Definition postWriteFirst (pw : Write) (ws : list Write) : Prop :=
  ∀ before w after,
    ws = before ++ w :: after →
    (∃ k, w = SubredditSaved k ∨ w = UserSaved k) →
    pw ∈ before.

(** The store after [post.save()] of an edited post. *)
Definition withPost (st : Store) (p : Post.t) : Store :=
  {| postDocs := <[Post._id p := p]> (postDocs st);
     subredditDocs := subredditDocs st; userDocs := userDocs st |}.

(** The fields no edit touches. *)
Definition editFrame (p p' : Post.t) : Prop :=
  Post._id p' = Post._id p ∧
  Post.title p' = Post.title p ∧
  Post.subreddit p' = Post.subreddit p ∧
  Post.author p' = Post.author p ∧
  Post.upvotedBy p' = Post.upvotedBy p ∧
  Post.pointsCount p' = Post.pointsCount p ∧
  Post.postType p' = Post.postType p ∧
  Post.comments p' = Post.comments p ∧
  Post.createdAt p' = Post.createdAt p.

(** ** Outcomes of handlers

    [wp h Q w]: running [h] from the world [w] ends (normally or by a
    throw) in a world that satisfies [Q]. *)

Definition wp {A} (h : Handler A) (Q : Completion A → World → Prop)
    (w : World) : Prop :=
  Q (h w).1 (h w).2.

Definition ticked (w : World) : World :=
  {| db := db w; sent := sent w; writes := writes w; awaits := S (awaits w) |}.

(** ** A small store for the examples

    Two users, one subreddit, a Text post by [alice] and an Image post by
    [bob]. *)
Module Sample.
Definition alice : User.t := User.mk "u1" "alice" ["p1"] 1.
Definition bob : User.t := User.mk "u2" "bob" ["p3"] 1.
Definition rocq : Subreddit.t := Subreddit.mk "s1" "rocq" ["p1"; "p3"].

Definition hello : Post.t :=
  {| Post._id := "p1"; Post.title := Some "hello"; Post.subreddit := "s1";
     Post.author := "u1"; Post.upvotedBy := ["u1"]; Post.pointsCount := 1;
     Post.postType := Some "Text"; Post.textSubmission := Some "body";
     Post.linkSubmission := None; Post.imageSubmission := None;
     Post.comments := []; Post.createdAt := 10; Post.updatedAt := Millis 10 |}.

Definition picture : Post.t :=
  {| Post._id := "p3"; Post.title := Some "look"; Post.subreddit := "s1";
     Post.author := "u2"; Post.upvotedBy := ["u2"]; Post.pointsCount := 1;
     Post.postType := Some "Image"; Post.textSubmission := None;
     Post.linkSubmission := None;
     Post.imageSubmission := Some (UploadedImage "http://img/0" "img0");
     Post.comments := []; Post.createdAt := 15; Post.updatedAt := Millis 15 |}.

Definition store : Store :=
  {| postDocs := <[ "p3" := picture ]> {[ "p1" := hello ]};
     subredditDocs := {[ "s1" := rocq ]};
     userDocs := <[ "u2" := bob ]> {[ "u1" := alice ]} |}.

(** What [new Post({})] gives: no field set, the fresh id [p2]. *)
Definition fresh : Post.t :=
  {| Post._id := "p2"; Post.title := None; Post.subreddit := "";
     Post.author := ""; Post.upvotedBy := []; Post.pointsCount := 0;
     Post.postType := None; Post.textSubmission := None;
     Post.linkSubmission := None; Post.imageSubmission := None;
     Post.comments := []; Post.createdAt := 20; Post.updatedAt := Millis 20 |}.

(** The database answers every call; the media host accepts; URLs spell
    ids in canonical form; the schema has no [updatedAt] path. *)
Definition env : Env :=
  {| rejects := fun _ => false;
     upload := fun _ => Uploaded "http://img/1" "img1";
     blankPost := fresh;
     segment := fun id => id;
     updatedAtIsDate := false;
     tieRank := fun _ _ => 0%nat |}.

(** The database answers every call; the media host fails. *)
Definition envHostDown : Env :=
  {| rejects := fun _ => false;
     upload := fun _ => UploadFailed "upload failed";
     blankPost := fresh;
     segment := fun id => id;
     updatedAtIsDate := false;
     tieRank := fun _ _ => 0%nat |}.

(** As [env], with a schema that declares [updatedAt] as a Date. *)
Definition envDatePath : Env :=
  {| rejects := fun _ => false;
     upload := upload env;
     blankPost := fresh;
     segment := fun id => id;
     updatedAtIsDate := true;
     tieRank := fun _ _ => 0%nat |}.

Definition edit : EditBody :=
  {| eb_textSubmission := Some "edited"; eb_linkSubmission := None;
     eb_imageSubmission := None |}.

Definition imagePost : CreateBody :=
  {| cb_title := Some "a picture"; cb_subreddit := Some "s1";
     cb_postType := Some "Image"; cb_textSubmission := None;
     cb_linkSubmission := None; cb_imageSubmission := Some "data:image/png" |}.

Definition imageEdit : EditBody :=
  {| eb_textSubmission := None; eb_linkSubmission := None;
     eb_imageSubmission := Some "data:image/png" |}.

Definition textPost : CreateBody :=
  {| cb_title := Some "a text"; cb_subreddit := Some "s1";
     cb_postType := Some "Text"; cb_textSubmission := Some "words";
     cb_linkSubmission := None; cb_imageSubmission := None |}.
End Sample.

(** HTTP's status for Forbidden; the controller sends it for one error,
    'Invalid post type.' in the edit route. *)
Definition httpForbidden : Z := 403.

(** [String.prototype.toUpperCase] on ASCII text. *)
Definition upperChar (c : Ascii.ascii) : Ascii.ascii :=
  let n := Ascii.nat_of_ascii c in
  if ((97 <=? n) && (n <=? 122))%nat then Ascii.ascii_of_nat (n - 32) else c.

Fixpoint upperCase (s : string) : string :=
  match s with
  | EmptyString => EmptyString
  | String c r => String (upperChar c) (upperCase r)
  end.

(** A store whose ids are ObjectId strings (24 hexadecimal digits, in lower
    case as [toString()] gives them), and clients whose URLs spell the
    digits in upper case: [findById] casts either spelling to the same
    ObjectId. *)
Module Shouted.
Definition postId : Id := "5f1b2c3d4e5f6a7b8c9d0e1f".
Definition subredditId : Id := "5f1b2c3d4e5f6a7b8c9d0e20".
Definition userId : Id := "5f1b2c3d4e5f6a7b8c9d0e21".

Definition author : User.t :=
  {| User._id := userId; User.username := "alice";
     User.posts := [postId]; User.postKarma := 1 |}.

Definition board : Subreddit.t :=
  {| Subreddit._id := subredditId; Subreddit.subredditName := "rocq";
     Subreddit.posts := [postId] |}.

Definition post : Post.t :=
  {| Post._id := postId; Post.title := Some "hello";
     Post.subreddit := subredditId; Post.author := userId;
     Post.upvotedBy := [userId]; Post.pointsCount := 1;
     Post.postType := Some "Text"; Post.textSubmission := Some "first";
     Post.linkSubmission := None; Post.imageSubmission := None;
     Post.comments := []; Post.createdAt := 10; Post.updatedAt := Millis 10 |}.

Definition store : Store :=
  {| postDocs := {[ postId := post ]};
     subredditDocs := {[ subredditId := board ]};
     userDocs := {[ userId := author ]} |}.

Definition env : Env :=
  {| rejects := fun _ => false;
     upload := upload Sample.env;
     blankPost := blankPost Sample.env;
     segment := upperCase;
     updatedAtIsDate := false;
     tieRank := fun _ _ => 0%nat |}.
End Shouted.

(** No two stored posts were created at the same time. *)
Definition distinctDates (st : Store) : Prop :=
  NoDup (Post.createdAt <$> (map_to_list (postDocs st)).*2).

(** Two posts created at the same time, and listing requests for which the
    database orders the two either way: for page 1 with [p6] first, for the
    other pages with [p7] first. *)
Module Tied.
Definition one : Post.t :=
  {| Post._id := "p6"; Post.title := Some "one";
     Post.subreddit := "s1"; Post.author := "u1";
     Post.upvotedBy := ["u1"]; Post.pointsCount := 1;
     Post.postType := Some "Text"; Post.textSubmission := Some "1";
     Post.linkSubmission := None; Post.imageSubmission := None;
     Post.comments := []; Post.createdAt := 30; Post.updatedAt := Millis 30 |}.

Definition other : Post.t :=
  {| Post._id := "p7"; Post.title := Some "other";
     Post.subreddit := "s1"; Post.author := "u1";
     Post.upvotedBy := ["u1"]; Post.pointsCount := 1;
     Post.postType := Some "Text"; Post.textSubmission := Some "2";
     Post.linkSubmission := None; Post.imageSubmission := None;
     Post.comments := []; Post.createdAt := 30; Post.updatedAt := Millis 30 |}.

Definition store : Store :=
  {| postDocs := {[ "p6" := one; "p7" := other ]};
     subredditDocs := subredditDocs Sample.store;
     userDocs := userDocs Sample.store |}.

Definition envs (pg : nat) : Env :=
  {| rejects := fun _ => false;
     upload := upload Sample.env;
     blankPost := blankPost Sample.env;
     segment := fun id => id;
     updatedAtIsDate := false;
     tieRank := fun _ id =>
       if Nat.eqb pg 1 then (if String.eqb id "p6" then 0 else 1)%nat
       else (if String.eqb id "p6" then 1 else 0)%nat |}.
End Tied.

(** A store with no document at all. *)
Definition emptyStore : Store :=
  {| postDocs := ∅; subredditDocs := ∅; userDocs := ∅ |}.

(** ** The comments route

    [Body] has no case for a post whose comments are populated, so the
    answer of this route is the value of its handler. *)

Record PopulatedReply := {
  replyDoc : Reply;
  repliedByUsername : option string
}.

Record PopulatedComment := {
  commentDoc : Comment;
  commentedByUsername : option string;
  repliesPopulated : list PopulatedReply
}.

Record PopulatedComments := {
  postDoc : Post.t;
  commentsPopulated : list PopulatedComment
}.

Inductive CommentsAnswer :=
| CommentsMessage (code : Z) (message : string)
| CommentsJson (code : Z) (p : PopulatedComments).

Definition populateReply (st : Store) (r : Reply) : PopulatedReply :=
  {| replyDoc := r;
     repliedByUsername := User.username <$> userDocs st !! repliedBy r |}.

Definition populateComment (st : Store) (c : Comment) : PopulatedComment :=
  {| commentDoc := c;
     commentedByUsername := User.username <$> userDocs st !! commentedBy c;
     repliesPopulated := populateReply st <$> replies c |}.

(** [post.populate('comments.commentedBy', 'username')
         .populate('comments.replies.repliedBy', 'username')] *)
Definition populateComments (st : Store) (p : Post.t) : PopulatedComments :=
  {| postDoc := p; commentsPopulated := populateComment st <$> Post.comments p |}.

Definition execPopulateComments (env : Env) (p : Post.t)
  : Handler PopulatedComments :=
  dbCall env (fun st => (Done (populateComments st p), st, [])).

(** [router.get('/:id/comments', ..)] *)
Definition router_get_comments (env : Env) (id : Id) : Handler CommentsAnswer :=
  post ← Post_findById env id;
  match post with
  | None =>
      mret (CommentsMessage 404
              ("Post with ID: '" +:+ segment env id
               +:+ "' does not exist in database."))
  | Some post =>
      populatedPost ← execPopulateComments env post;
      mret (CommentsJson 200 populatedPost)
  end.

(** The value a handler ends with, when it does not throw. *)
Definition answer {A} (h : Handler A) (st : Store) : option A :=
  match (h (request st)).1 with
  | Done a => Some a
  | Thrown _ => None
  end.

(** ** Referential integrity of the posts arrays *)

(** No posts array names a post that does not exist: an id in a
    subreddit's array is a post of that subreddit, an id in a user's array
    is a post of that author. *)
Definition noDangling (st : Store) : Prop :=
  (∀ sid s pid,
     subredditDocs st !! sid = Some s → pid ∈ Subreddit.posts s →
     ∃ p, postDocs st !! pid = Some p ∧ Post.subreddit p = sid) ∧
  (∀ uid u pid,
     userDocs st !! uid = Some u → pid ∈ User.posts u →
     ∃ p, postDocs st !! pid = Some p ∧ Post.author p = uid).

(** Every post is in the posts array of its subreddit and of its author. *)
Definition allListed (st : Store) : Prop :=
  ∀ pid p,
    postDocs st !! pid = Some p →
    (∃ s, subredditDocs st !! Post.subreddit p = Some s ∧
          pid ∈ Subreddit.posts s) ∧
    (∃ u, userDocs st !! Post.author p = Some u ∧ pid ∈ User.posts u).

(** The items of the page a listing request was answered with. *)
Definition pageItems (w : World) : list Populated :=
  match sent w with
  | [{| status := _; body := JsonPage _ items _ |}] => items
  | _ => []
  end.

(** The database answers every call. *)
Definition reliable (env : Env) : Prop := ∀ n, rejects env n = false.

(** ** A post with a discussion, for the examples of the comments route *)
Module Thread.
Definition discussed : Post.t :=
  {| Post._id := "p5"; Post.title := Some "ask"; Post.subreddit := "s1";
     Post.author := "u1"; Post.upvotedBy := ["u1"]; Post.pointsCount := 1;
     Post.postType := Some "Text"; Post.textSubmission := Some "why?";
     Post.linkSubmission := None; Post.imageSubmission := None;
     Post.comments :=
       [{| commentedBy := "u2";
           replies := [{| repliedBy := "u1" |}; {| repliedBy := "u7" |}] |}];
     Post.createdAt := 30; Post.updatedAt := Millis 30 |}.

Definition store : Store :=
  {| postDocs := {[ "p5" := discussed ]};
     subredditDocs := subredditDocs Sample.store;
     userDocs := userDocs Sample.store |}.
End Thread.

(** ** The stores a request can leave behind *)

(** The store after [subreddit.save()], [user.save()] and
    [Post.findByIdAndDelete(id)]. *)
Definition withSubreddit (st : Store) (s : Subreddit.t) : Store :=
  {| postDocs := postDocs st;
     subredditDocs := <[Subreddit._id s := s]> (subredditDocs st);
     userDocs := userDocs st |}.

Definition withUser (st : Store) (u : User.t) : Store :=
  {| postDocs := postDocs st; subredditDocs := subredditDocs st;
     userDocs := <[User._id u := u]> (userDocs st) |}.

Definition withoutPost (st : Store) (id : Id) : Store :=
  {| postDocs := delete id (postDocs st);
     subredditDocs := subredditDocs st; userDocs := userDocs st |}.

(** The subreddit and the author as the create route saves them. *)
Definition listedIn (pid : Id) (s : Subreddit.t) : Subreddit.t :=
  Subreddit.set_posts (Subreddit.posts s ++ [pid]) s.

Definition creditedWith (pid : Id) (u : User.t) : User.t :=
  User.set_postKarma (User.postKarma u + 1)
    (User.set_posts (User.posts u ++ [pid]) u).

(** The subreddit and the author as the delete route saves them: without
    the ids that read as the URL segment [seg]. *)
Definition unlistedFrom (seg : string) (s : Subreddit.t) : Subreddit.t :=
  Subreddit.set_posts (filter (fun p => p ≠ seg) (Subreddit.posts s)) s.

Definition relievedOf (seg : string) (u : User.t) : User.t :=
  User.set_posts (filter (fun p => p ≠ seg) (User.posts u)) u.

(** The save of the subreddit (the fourth database call of a create
    request) is rejected. *)
Definition envSubredditSaveFails : Env :=
  {| rejects := fun n => Nat.eqb n 3;
     upload := upload Sample.env;
     blankPost := blankPost Sample.env;
     segment := segment Sample.env;
     updatedAtIsDate := updatedAtIsDate Sample.env;
     tieRank := tieRank Sample.env |}.

(** A validator that accepts every type, and a store whose one post has a
    type the edit route does not know. *)
Definition validatorLenient : Validator :=
  fun _ text link image =>
    Valid {| vfPostType := None; vfTextSubmission := text;
             vfLinkSubmission := link; vfImageSubmission := image |}.

Definition storeWithVideo : Store :=
  {| postDocs :=
       {[ "p5" := {| Post._id := "p5"; Post.title := Some "clip";
                     Post.subreddit := "s1"; Post.author := "u1";
                     Post.upvotedBy := ["u1"]; Post.pointsCount := 1;
                     Post.postType := Some "Video";
                     Post.textSubmission := None; Post.linkSubmission := None;
                     Post.imageSubmission := None; Post.comments := [];
                     Post.createdAt := 40; Post.updatedAt := Millis 40 |} ]};
     subredditDocs := subredditDocs Sample.store;
     userDocs := userDocs Sample.store |}.

(** The save of the subreddit (the fifth database call of a delete
    request) is rejected. *)
Definition envUnlistFails : Env :=
  {| rejects := fun n => Nat.eqb n 4;
     upload := upload Sample.env;
     blankPost := blankPost Sample.env;
     segment := segment Sample.env;
     updatedAtIsDate := updatedAtIsDate Sample.env;
     tieRank := tieRank Sample.env |}.

(** The sample store without its subreddit: the posts name a subreddit
    that does not exist. *)
Definition storeWithoutSubreddit : Store :=
  {| postDocs := postDocs Sample.store;
     subredditDocs := ∅;
     userDocs := userDocs Sample.store |}.

(** * Properties *)

(** ** Pagination window *)

Section pagination.
Variables pg lim totalCount : Z.

Lemma paginate_startIndex :
  startIndex (paginateResults pg lim totalCount) = (pg - 1) * lim.
Proof. reflexivity. Qed.

Lemma paginate_endIndex :
  endIndex (paginateResults pg lim totalCount) = pg * lim.
Proof. reflexivity. Qed.

Lemma paginate_previous_Some :
  0 < (pg - 1) * lim →
  previous (results (paginateResults pg lim totalCount))
  = Some {| page := pg - 1; limit := lim |}.
Proof.
  intros H. cbn. destruct (Z.ltb_spec 0 ((pg - 1) * lim)); [done | lia].
Qed.

Lemma paginate_previous_None :
  ¬ 0 < (pg - 1) * lim →
  previous (results (paginateResults pg lim totalCount)) = None.
Proof.
  intros H. cbn. destruct (Z.ltb_spec 0 ((pg - 1) * lim)); [lia | done].
Qed.

Lemma paginate_next_Some :
  pg * lim < totalCount →
  next (results (paginateResults pg lim totalCount))
  = Some {| page := pg + 1; limit := lim |}.
Proof.
  intros H. cbn. destruct (Z.ltb_spec (pg * lim) totalCount); [done | lia].
Qed.

Lemma paginate_next_None :
  ¬ pg * lim < totalCount →
  next (results (paginateResults pg lim totalCount)) = None.
Proof.
  intros H. cbn. destruct (Z.ltb_spec (pg * lim) totalCount); [lia | done].
Qed.

Lemma paginate_previous_iff :
  is_Some (previous (results (paginateResults pg lim totalCount)))
  ↔ 0 < (pg - 1) * lim.
Proof.
  destruct (decide (0 < (pg - 1) * lim)) as [H|H].
  - rewrite paginate_previous_Some by done. split; eauto.
  - rewrite paginate_previous_None by done. split; [|done].
    intros [? ?]; done.
Qed.

Lemma paginate_next_iff :
  is_Some (next (results (paginateResults pg lim totalCount)))
  ↔ pg * lim < totalCount.
Proof.
  destruct (decide (pg * lim < totalCount)) as [H|H].
  - rewrite paginate_next_Some by done. split; eauto.
  - rewrite paginate_next_None by done. split; [|done].
    intros [? ?]; done.
Qed.
End pagination.

(** C1. On the contract domain ([page ≥ 1], [limit > 0], [totalCount ≥ 0])
    the pagination calculator returns [startIndex = (page-1)*limit] and
    [endIndex = page*limit]; the previous reference is present exactly when
    [startIndex > 0] (equivalently, when [page > 1]) and is then
    [{page: page-1, limit}]; the next reference is present exactly when
    [endIndex < totalCount] and is then [{page: page+1, limit}]. In
    particular [paginate(2, 10, 25)] has previous [{page:1, limit:10}] and
    next [{page:3, limit:10}]. *)
Theorem paginateResults_contract (pg lim totalCount : Z) :
  1 ≤ pg → 0 < lim → 0 ≤ totalCount →
  let r := paginateResults pg lim totalCount in
  startIndex r = (pg - 1) * lim ∧
  endIndex r = pg * lim ∧
  (is_Some (previous (results r)) ↔ 0 < startIndex r) ∧
  (is_Some (previous (results r)) ↔ 1 < pg) ∧
  (∀ ref, previous (results r) = Some ref →
          ref = {| page := pg - 1; limit := lim |}) ∧
  (is_Some (next (results r)) ↔ endIndex r < totalCount) ∧
  (∀ ref, next (results r) = Some ref →
          ref = {| page := pg + 1; limit := lim |}) ∧
  results (paginateResults 2 10 25)
  = {| previous := Some {| page := 1; limit := 10 |};
       next := Some {| page := 3; limit := 10 |} |}.
Proof.
  intros Hpg Hlim Htotal r. subst r.
  rewrite paginate_startIndex, paginate_endIndex.
  split_and!; try reflexivity.
  - apply paginate_previous_iff.
  - rewrite paginate_previous_iff. nia.
  - intros ref Href.
    assert (0 < (pg - 1) * lim) as H
      by (apply (paginate_previous_iff pg lim totalCount); eauto).
    rewrite paginate_previous_Some in Href by done. congruence.
  - apply paginate_next_iff.
  - intros ref Href.
    assert (pg * lim < totalCount) as H
      by (apply (paginate_next_iff pg lim totalCount); eauto).
    rewrite paginate_next_Some in Href by done. congruence.
Qed.

Lemma paginateResults_contract_witness :
  (1 ≤ 2 ∧ 0 < 10 ∧ 0 ≤ 25) ∧
  startIndex (paginateResults 2 10 25) = 10 ∧
  endIndex (paginateResults 2 10 25) = 20 ∧
  (is_Some (previous (results (paginateResults 2 10 25))) ↔ 1 < 2).
Proof.
  split; [lia|].
  destruct (paginateResults_contract 2 10 25) as (Hs & He & _ & Hp & _);
    [lia | lia | lia |].
  split_and!; [exact Hs | exact He | exact Hp].
Defined.

(** C7, as stated, fails: [endIndex] is [page*limit] whatever the total is,
    so on a short last page it exceeds the total. [paginate(1, 10, 5)] ends
    at 10 > 5. *)
Lemma window_exceeds_total :
  (1 ≤ 1 ∧ 0 < 10 ∧ 0 ≤ 5) ∧
  ¬ (0 ≤ startIndex (paginateResults 1 10 5)
       ≤ endIndex (paginateResults 1 10 5) ∧
     endIndex (paginateResults 1 10 5) ≤ 5 ∧
     (previous (results (paginateResults 1 10 5)) = None
      ↔ startIndex (paginateResults 1 10 5) = 0)).
Proof. split; [lia|]. cbn. lia. Qed.

(** C7, amended. On the contract domain [0 ≤ startIndex ≤ endIndex], the
    previous reference is absent iff [startIndex = 0], and [endIndex] stays
    below the total exactly when a next reference is present (so
    [endIndex ≤ totalCount] is only guaranteed on a page that has a next
    page). *)
Theorem window_ordered (pg lim totalCount : Z) :
  1 ≤ pg → 0 < lim → 0 ≤ totalCount →
  let r := paginateResults pg lim totalCount in
  0 ≤ startIndex r ≤ endIndex r ∧
  (previous (results r) = None ↔ startIndex r = 0) ∧
  (is_Some (next (results r)) ↔ endIndex r < totalCount).
Proof.
  intros Hpg Hlim Htotal r. subst r.
  rewrite paginate_startIndex, paginate_endIndex.
  split_and!; try nia.
  - split.
    + intros Hnone.
      destruct (decide (0 < (pg - 1) * lim)) as [H|H]; [|nia].
      rewrite paginate_previous_Some in Hnone by done. discriminate.
    + intros H0. apply paginate_previous_None. lia.
  - apply paginate_next_iff.
Qed.

Lemma window_ordered_witness :
  (1 ≤ 1 ∧ 0 < 10 ∧ 0 ≤ 5) ∧
  0 ≤ startIndex (paginateResults 1 10 5) ≤ endIndex (paginateResults 1 10 5).
Proof.
  split; [lia|].
  destruct (window_ordered 1 10 5) as (H & _); [lia | lia | lia |].
  exact H.
Defined.

(** ** Submission validator *)

Lemma strictEq_true (v : option string) (lit : string) :
  strictEq v lit = true ↔ v = Some lit.
Proof.
  destruct v as [s|]; cbn.
  - rewrite String.eqb_eq. split; congruence.
  - split; discriminate.
Qed.

Lemma strictEq_false (v : option string) (lit : string) :
  strictEq v lit = false ↔ v ≠ Some lit.
Proof.
  rewrite <- strictEq_true. destruct (strictEq v lit); split; congruence.
Qed.

Section validator_facts.
Variable blank : string → bool.
Variable normalize : string → string.

Lemma parseSubmission_None field :
  parseSubmission blank normalize field = None ↔ missingOrBlank blank field.
Proof.
  destruct field as [s|]; cbn; [|done].
  destruct (blank s); split; congruence.
Qed.

Lemma postTypeValidator_unknown postType text link image :
  postType ≠ Some "Text" → postType ≠ Some "Link" → postType ≠ Some "Image" →
  postTypeValidator blank normalize postType text link image
  = Invalid InvalidPostType.
Proof.
  intros Ht Hl Hi. unfold postTypeValidator.
  apply strictEq_false in Ht, Hl, Hi. by rewrite Ht, Hl, Hi.
Qed.

Lemma postTypeValidator_Text text link image :
  postTypeValidator blank normalize (Some "Text") text link image
  = match parseSubmission blank normalize text with
    | Some t => Valid {| vfPostType := None; vfTextSubmission := Some t;
                         vfLinkSubmission := None; vfImageSubmission := None |}
    | None => Invalid EmptySubmission
    end.
Proof. reflexivity. Qed.

Lemma postTypeValidator_Link text link image :
  postTypeValidator blank normalize (Some "Link") text link image
  = match parseSubmission blank normalize link with
    | Some l => Valid {| vfPostType := None; vfTextSubmission := None;
                         vfLinkSubmission := Some l; vfImageSubmission := None |}
    | None => Invalid EmptySubmission
    end.
Proof. reflexivity. Qed.

Lemma postTypeValidator_Image text link image :
  postTypeValidator blank normalize (Some "Image") text link image
  = match parseSubmission blank normalize image with
    | Some i => Valid {| vfPostType := None; vfTextSubmission := None;
                         vfLinkSubmission := None; vfImageSubmission := Some i |}
    | None => Invalid EmptySubmission
    end.
Proof. reflexivity. Qed.

Lemma postTypeValidator_cases postType text link image :
  postType = Some "Text" ∨ postType = Some "Link" ∨ postType = Some "Image" ∨
  postTypeValidator blank normalize postType text link image
  = Invalid InvalidPostType.
Proof.
  destruct (decide (postType = Some "Text")); [by left|].
  destruct (decide (postType = Some "Link")); [by right; left|].
  destruct (decide (postType = Some "Image")); [by right; right; left|].
  right; right; right. by apply postTypeValidator_unknown.
Qed.
End validator_facts.

(** C2. For every declared type and every three optional fields the
    validator fails with InvalidPostType when the type is none of Text, Link,
    Image; fails with EmptySubmission when the field of the declared type is
    missing or blank (so for postType Link with an empty linkSubmission,
    the empty string being blank); and a successful result has exactly one
    populated field, the one of the declared type. *)
Theorem postTypeValidator_contract
    (blank : string → bool) (normalize : string → string)
    (postType text link image : option string) :
  blank "" = true →
  let v := postTypeValidator blank normalize postType text link image in
  (postType ≠ Some "Text" → postType ≠ Some "Link" → postType ≠ Some "Image" →
   v = Invalid InvalidPostType) ∧
  (postType = Some "Text" → missingOrBlank blank text →
   v = Invalid EmptySubmission) ∧
  (postType = Some "Link" → missingOrBlank blank link →
   v = Invalid EmptySubmission) ∧
  (postType = Some "Image" → missingOrBlank blank image →
   v = Invalid EmptySubmission) ∧
  (∀ vf, v = Valid vf →
     (postType = Some "Text" ∨ postType = Some "Link" ∨ postType = Some "Image") ∧
     populatedFields vf = [fieldOfType postType]) ∧
  postTypeValidator blank normalize (Some "Link") text (Some "") image
  = Invalid EmptySubmission.
Proof.
  intros Hblank v. subst v. split_and!.
  - apply postTypeValidator_unknown.
  - intros -> H. apply (parseSubmission_None blank normalize) in H.
    by rewrite postTypeValidator_Text, H.
  - intros -> H. apply (parseSubmission_None blank normalize) in H.
    by rewrite postTypeValidator_Link, H.
  - intros -> H. apply (parseSubmission_None blank normalize) in H.
    by rewrite postTypeValidator_Image, H.
  - intros vf.
    destruct (postTypeValidator_cases blank normalize postType text link image)
      as [-> | [-> | [-> | ->]]]; [| | |discriminate].
    + rewrite postTypeValidator_Text.
      destruct (parseSubmission blank normalize text); [|discriminate].
      intros [= <-]. split; [by left | reflexivity].
    + rewrite postTypeValidator_Link.
      destruct (parseSubmission blank normalize link); [|discriminate].
      intros [= <-]. split; [by right; left | reflexivity].
    + rewrite postTypeValidator_Image.
      destruct (parseSubmission blank normalize image); [|discriminate].
      intros [= <-]. split; [by right; right | reflexivity].
  - rewrite postTypeValidator_Link. cbn. by rewrite Hblank.
Qed.

Lemma postTypeValidator_contract_witness :
  isEmpty "" = true ∧
  postTypeValidator isEmpty id (Some "Link") None (Some "") None
  = Invalid EmptySubmission ∧
  postTypeValidator isEmpty id (Some "Video") None (Some "") None
  = Invalid InvalidPostType.
Proof.
  split; [reflexivity|].
  destruct (postTypeValidator_contract isEmpty id (Some "Video") None (Some "") None)
    as (Hu & _ & _ & _ & _ & He); [reflexivity|].
  split; [exact He | apply Hu; discriminate].
Defined.

(** ** Rules for the outcomes of handlers *)

Section wp_rules.
Context {A B : Type}.
Variable env : Env.

Lemma wp_ret (a : A) Q w : Q (Done a) w → wp (mret a) Q w.
Proof. done. Qed.

Lemma wp_throw (e : Exn) (Q : Completion A → World → Prop) w :
  Q (Thrown e) w → wp (throw e) Q w.
Proof. done. Qed.

Lemma wp_bind (m : Handler A) (f : A → Handler B) Q w :
  wp m (fun c w' =>
          match c with
          | Done a => wp (f a) Q w'
          | Thrown e => Q (Thrown e) w'
          end) w →
  wp (m ≫= f) Q w.
Proof.
  unfold wp, mbind, handler_bind. by destruct (m w) as [[a|e] w'].
Qed.

Lemma wp_dbCall (op : Store → Completion A * Store * list Write) Q w :
  (rejects env (awaits w) = true → Q (Thrown DbFailure) (ticked w)) →
  (rejects env (awaits w) = false →
   Q (op (db w)).1.1
     {| db := (op (db w)).1.2; sent := sent w;
        writes := writes w ++ (op (db w)).2; awaits := S (awaits w) |}) →
  wp (dbCall env op) Q w.
Proof.
  unfold wp, dbCall. intros Hrej Hok.
  destruct (rejects env (awaits w)); [by apply Hrej|].
  destruct (op (db w)) as [[r st] ws]. by apply Hok.
Qed.
End wp_rules.

Lemma wp_send (code : Z) (b : Body) Q w :
  Q (Done ())
    {| db := db w; sent := sent w ++ [{| status := code; body := b |}];
       writes := writes w; awaits := awaits w |} →
  wp (res_send code b) Q w.
Proof. done. Qed.

Lemma wp_upload (env : Env) (payload : option string) Q w :
  (∀ url public_id,
     upload env payload = Uploaded url public_id →
     Q (Done (url, public_id)) w) →
  (∀ message,
     upload env payload = UploadFailed message →
     Q (Thrown (UploadFailure message))
       {| db := db w;
          sent := sent w ++ [{| status := 401; body := JsonMessage message |}];
          writes := writes w; awaits := awaits w |}) →
  wp (cloudinary_upload env payload) Q w.
Proof.
  unfold cloudinary_upload. intros Hok Hfail.
  destruct (upload env payload) as [url pid|msg]; [by apply Hok|].
  by apply Hfail.
Qed.

Lemma wp_validate (validator : Validator) (postType text link image : option string)
    Q w :
  (∀ vf, validator postType text link image = Valid vf → Q (Done vf) w) →
  (∀ k, validator postType text link image = Invalid k →
        Q (Thrown (ValidationFailure k)) w) →
  wp (validate validator postType text link image) Q w.
Proof.
  unfold validate. intros Hok Hfail.
  destruct (validator postType text link image) as [vf|k]; [by apply Hok|].
  by apply Hfail.
Qed.

Lemma wp_findListing (env : Env) (lim skp : Z) Q w :
  wp (dbCall env (fun st =>
        if skp <? 0 then (Thrown DbFailure, st, [])
        else (Done (listingWindow (tieRank env (awaits w)) st lim skp), st, [])))
     Q w →
  wp (Post_findListing env lim skp) Q w.
Proof. done. Qed.

Lemma wp_run (h : Handler unit) (st : Store) (P : option Exn → World → Prop) :
  wp h (fun c w => P (thrown c) w) (request st) → P (raised h st) (run h st).
Proof. done. Qed.

Ltac wp_simpl :=
  cbn [db sent writes awaits ticked fst snd app negb thrown
       postDocs subredditDocs userDocs statuses status fmap list_fmap] in *.

Ltac wp_step :=
  lazymatch goal with
  | |- wp (Post_findListing _ _ _) _ _ => apply wp_findListing
  | |- wp (_ ≫= _) _ _ => apply wp_bind
  | |- wp (mret _) _ _ => apply wp_ret
  | |- wp (throw _) _ _ => apply wp_throw
  | |- wp (res_send _ _) _ _ => apply wp_send
  | |- wp (dbCall _ _) _ _ => apply wp_dbCall; intros ?
  | |- wp (cloudinary_upload _ _) _ _ =>
      apply wp_upload; [intros ? ? ? | intros ? ?]
  | |- wp (validate _ _ _ _ _) _ _ => apply wp_validate; intros ? ?
  | |- wp (if negb (String.eqb ?a ?b) then _ else _) _ _ =>
      destruct (String.eqb_spec a b)
  | |- wp (match ?x with _ => _ end) _ _ => destruct x eqn:?
  | |- wp (if ?b then _ else _) _ _ => destruct b eqn:?
  end;
  wp_simpl; try (exfalso; congruence).

Ltac wp_unfold :=
  unfold Post_findById, User_findById, Subreddit_findById, Post_countDocuments,
    Post_saveStamped, Post_save, Subreddit_save, User_save,
    Post_findByIdAndDelete, execPopulate, saveEdited.

Ltac wp_run := repeat (wp_unfold; wp_step).

(** Closes the branch of a rejected database call when [R] says that the
    database answers every call. *)
Ltac by_reliable R :=
  match goal with
  | H : rejects _ _ = true |- _ => rewrite R in H; discriminate H
  end.

(** Membership of a status code in an explicit list of answers. *)
Ltac status_absurd H :=
  repeat (apply elem_of_cons in H as [H|H]; [discriminate H|]);
  by apply elem_of_nil in H.

(** ** Refusals of the edit and delete routes *)

Lemma router_patch_denied validator env id user b st post author :
  rejects env 0%nat = false → rejects env 1%nat = false →
  postDocs st !! id = Some post → userDocs st !! user = Some author →
  Post.author post ≠ User._id author →
  wp (router_patch validator env id user b)
     (fun c w => thrown c = None ∧ sent w = accessDenied ∧
                 db w = st ∧ writes w = [])
     (request st).
Proof.
  intros R0 R1 Hp Hu Hne. unfold router_patch, request.
  wp_run. simplify_eq. done.
Qed.

Lemma router_delete_denied env id user st post author :
  rejects env 0%nat = false → rejects env 1%nat = false →
  postDocs st !! id = Some post → userDocs st !! user = Some author →
  Post.author post ≠ User._id author →
  wp (router_delete env id user)
     (fun c w => thrown c = None ∧ sent w = accessDenied ∧
                 db w = st ∧ writes w = [])
     (request st).
Proof.
  intros R0 R1 Hp Hu Hne. unfold router_delete, request.
  wp_run. simplify_eq. done.
Qed.

(** C3 as stated, with the status of Forbidden, fails. Bob and the post
    [p1] both exist and bob is not its author: his edit request and his
    delete request are each answered 401, and 403 is not among the statuses
    sent. *)
Lemma non_author_not_forbidden :
  let edited :=
    run (router_patch validatorDefault Sample.env "p1" "u2" Sample.edit)
        Sample.store in
  let deleted := run (router_delete Sample.env "p1" "u2") Sample.store in
  postDocs Sample.store !! "p1" = Some Sample.hello ∧
  userDocs Sample.store !! "u2" = Some Sample.bob ∧
  Post.author Sample.hello ≠ User._id Sample.bob ∧
  statuses edited = [401] ∧ statuses deleted = [401] ∧
  (httpForbidden ∉ statuses edited) ∧ (httpForbidden ∉ statuses deleted).
Proof.
  split_and!; try reflexivity; try discriminate.
  all: vm_compute; intros Hin; status_absurd Hin.
Qed.

(** C3, amended. When the post and the requesting user are both found and
    the user is not the post's author, the edit route and the delete route
    each answer once, with status 401 (Unauthorized, not Forbidden) and the
    message "Access is denied.", complete without a throw, and leave the
    store as it was: no write is made, and the post is neither modified nor
    deleted. *)
Theorem non_author_refused
    (validator : Validator) (env : Env) (id user : Id) (b : EditBody)
    (st : Store) (post : Post.t) (author : User.t) :
  rejects env 0%nat = false → rejects env 1%nat = false →
  postDocs st !! id = Some post → userDocs st !! user = Some author →
  Post.author post ≠ User._id author →
  let edited := run (router_patch validator env id user b) st in
  let deleted := run (router_delete env id user) st in
  (sent edited = [{| status := 401; body := JsonMessage "Access is denied." |}] ∧
   raised (router_patch validator env id user b) st = None ∧
   db edited = st ∧ writes edited = [] ∧
   postDocs (db edited) !! id = Some post) ∧
  (sent deleted = [{| status := 401; body := JsonMessage "Access is denied." |}] ∧
   raised (router_delete env id user) st = None ∧
   db deleted = st ∧ writes deleted = [] ∧
   postDocs (db deleted) !! id = Some post).
Proof.
  intros R0 R1 Hp Hu Hne edited deleted. subst edited deleted. split.
  - destruct (router_patch_denied validator env id user b st post author)
      as (Hc & Hs & Hdb & Hw); try done.
    split_and!; [exact Hs | exact Hc | exact Hdb | exact Hw |].
    unfold run. by rewrite Hdb.
  - destruct (router_delete_denied env id user st post author)
      as (Hc & Hs & Hdb & Hw); try done.
    split_and!; [exact Hs | exact Hc | exact Hdb | exact Hw |].
    unfold run. by rewrite Hdb.
Qed.

Lemma non_author_refused_witness :
  sent (run (router_delete Sample.env "p1" "u2") Sample.store)
  = [{| status := 401; body := JsonMessage "Access is denied." |}] ∧
  db (run (router_patch validatorDefault Sample.env "p1" "u2" Sample.edit)
          Sample.store)
  = Sample.store.
Proof.
  destruct (non_author_refused validatorDefault Sample.env "p1" "u2" Sample.edit
              Sample.store Sample.hello Sample.bob)
    as [(_ & _ & Hdb & _) (Hs & _)];
    [reflexivity | reflexivity | reflexivity | reflexivity | discriminate |].
  split; [exact Hs | exact Hdb].
Defined.

(** ** The delete route writes nothing when it refuses *)

Lemma router_delete_refusals env id user st :
  wp (router_delete env id user)
     (fun _ w =>
        ((404 ∈ statuses w ∨ 401 ∈ statuses w) → db w = st ∧ writes w = []) ∧
        (delete_refused st id user →
         db w = st ∧ writes w = [] ∧ 204 ∉ statuses w))
     (request st).
Proof.
  unfold router_delete, request. wp_run.
  all: try (split; [done | intros _; split_and!; [done | done |];
                    intros Hin; status_absurd Hin]).
  all: split;
    [ intros [Hin|Hin]; status_absurd Hin
    | intros [?|[?|(p & a & ? & ? & [?|?])]]; simplify_eq; congruence ].
Qed.

(** When the post's subreddit is missing, the route does not answer 404:
    building the message throws, nothing is sent, nothing is written. *)
Lemma router_delete_missing_subreddit env id user st post author :
  (∀ n, rejects env n = false) →
  postDocs st !! id = Some post → userDocs st !! user = Some author →
  Post.author post = User._id author →
  subredditDocs st !! Post.subreddit post = None →
  raised (router_delete env id user) st = Some TypeError ∧
  sent (run (router_delete env id user) st) = [] ∧
  db (run (router_delete env id user) st) = st.
Proof.
  intros R Hp Hu Ha Hs.
  apply (wp_run _ _ (fun e w => e = Some TypeError ∧ sent w = [] ∧ db w = st)).
  unfold router_delete, request. wp_run; try by_reliable R.
  simplify_eq. done.
Qed.

(** C9. The delete route is atomic on error. Whenever a request is answered
    with 404 or with the non-author rejection (401), and whenever it is
    refused for one of the reasons behind them (post, user or subreddit
    absent, requester not the author), no write has been made: the store,
    hence the post, the subreddit's posts array and the author's posts
    array, is as it was. *)
Theorem delete_atomic_on_error (env : Env) (id user : Id) (st : Store) :
  let w := run (router_delete env id user) st in
  ((404 ∈ statuses w ∨ 401 ∈ statuses w) → db w = st ∧ writes w = []) ∧
  (delete_refused st id user → db w = st ∧ writes w = [] ∧ 204 ∉ statuses w).
Proof. exact (router_delete_refusals env id user st). Qed.

Lemma delete_atomic_on_error_witness :
  401 ∈ statuses (run (router_delete Sample.env "p1" "u2") Sample.store) ∧
  db (run (router_delete Sample.env "p1" "u2") Sample.store) = Sample.store ∧
  db (run (router_delete Sample.env "p9" "u1") Sample.store) = Sample.store.
Proof.
  assert (401 ∈ statuses (run (router_delete Sample.env "p1" "u2") Sample.store))
    as H401 by (vm_compute; apply list_elem_of_here).
  split; [exact H401|]. split.
  - destruct (delete_atomic_on_error Sample.env "p1" "u2" Sample.store)
      as [Hstatus _].
    apply Hstatus. right; exact H401.
  - destruct (delete_atomic_on_error Sample.env "p9" "u1" Sample.store)
      as [_ Hcause].
    apply Hcause. left; reflexivity.
Defined.

(** ** Order of the writes *)

Lemma postWriteFirst_nil pw : postWriteFirst pw [].
Proof. intros [|? ?] ? ? Heq; discriminate Heq. Qed.

Lemma postWriteFirst_cons pw ws :
  (∀ k, pw ≠ SubredditSaved k) → (∀ k, pw ≠ UserSaved k) →
  postWriteFirst pw (pw :: ws).
Proof.
  intros Hs Hu [|x before] wr after Heq [k [Hw|Hw]]; simplify_eq/=.
  - by destruct (Hs k).
  - by destruct (Hu k).
  - apply list_elem_of_here.
  - apply list_elem_of_here.
Qed.

Lemma router_post_order validator env user b st :
  wp (router_post validator env user b)
     (fun _ w => postWriteFirst (PostSaved (Post._id (blankPost env))) (writes w))
     (request st).
Proof.
  unfold router_post, request. wp_run.
  all: first [ apply postWriteFirst_nil | by apply postWriteFirst_cons ].
Qed.

Lemma router_delete_order env id user st :
  wp (router_delete env id user)
     (fun _ w => postWriteFirst (PostDeleted id) (writes w))
     (request st).
Proof.
  unfold router_delete, request. wp_run.
  all: first [ apply postWriteFirst_nil | by apply postWriteFirst_cons ].
Qed.

(** C5. In every execution of the create route and of the delete route,
    whatever the database and the media host do, a write of the subreddit
    or of the author completes only after the write of the post itself (its
    save, respectively its deletion) has completed. *)
Theorem parents_written_after_post
    (validator : Validator) (env : Env) (id user : Id) (b : CreateBody)
    (st : Store) :
  postWriteFirst (PostSaved (Post._id (blankPost env)))
                 (writes (run (router_post validator env user b) st)) ∧
  postWriteFirst (PostDeleted id)
                 (writes (run (router_delete env id user) st)).
Proof.
  split.
  - exact (router_post_order validator env user b st).
  - exact (router_delete_order env id user st).
Qed.

Lemma parents_written_after_post_witness :
  writes (run (router_post validatorDefault Sample.env "u2" Sample.textPost)
              Sample.store)
  = [PostSaved "p2"] ++ SubredditSaved "s1" :: [UserSaved "u2"] ∧
  PostSaved "p2" ∈ [PostSaved "p2"].
Proof.
  split; [reflexivity|].
  destruct (parents_written_after_post validatorDefault Sample.env "p1" "u2"
              Sample.textPost Sample.store) as [Hcreate _].
  apply (Hcreate [PostSaved "p2"] (SubredditSaved "s1") [UserSaved "u2"]);
    [reflexivity | exists "s1"; left; reflexivity].
Defined.

Example create_trace :
  writes (run (router_post validatorDefault Sample.env "u2" Sample.textPost)
              Sample.store)
  = [PostSaved "p2"; SubredditSaved "s1"; UserSaved "u2"].
Proof. reflexivity. Qed.

Example delete_trace :
  writes (run (router_delete Sample.env "p1" "u1") Sample.store)
  = [PostDeleted "p1"; SubredditSaved "s1"; UserSaved "u1"].
Proof. reflexivity. Qed.

(** ** A failing media upload *)

Lemma router_post_upload_failure validator env user b st :
  wp (router_post validator env user b)
     (fun c w => ∀ message, thrown c = Some (UploadFailure message) →
                            db w = st ∧ writes w = [])
     (request st).
Proof.
  unfold router_post, request. wp_run.
  all: intros ? Hthrown; try discriminate Hthrown; done.
Qed.

Lemma router_patch_upload_failure validator env id user b st :
  wp (router_patch validator env id user b)
     (fun c w => ∀ message, thrown c = Some (UploadFailure message) →
                            db w = st ∧ writes w = [])
     (request st).
Proof.
  unfold router_patch, request. wp_run.
  all: intros ? Hthrown; try discriminate Hthrown; done.
Qed.

(** C6. When the media upload fails during a create or an edit request (the
    request ends with the upload's rejection), nothing has been written:
    the store is the one the request started from, so every post that
    existed before has the same contents afterwards. *)
Theorem upload_failure_keeps_posts
    (validator : Validator) (env : Env) (id user : Id)
    (cb : CreateBody) (eb : EditBody) (st : Store) (message : string) :
  (raised (router_post validator env user cb) st = Some (UploadFailure message) →
   let w := run (router_post validator env user cb) st in
   db w = st ∧ writes w = [] ∧
   ∀ k p, postDocs st !! k = Some p → postDocs (db w) !! k = Some p) ∧
  (raised (router_patch validator env id user eb) st = Some (UploadFailure message) →
   let w := run (router_patch validator env id user eb) st in
   db w = st ∧ writes w = [] ∧
   ∀ k p, postDocs st !! k = Some p → postDocs (db w) !! k = Some p).
Proof.
  split; intros Hraised w; subst w.
  - destruct (router_post_upload_failure validator env user cb st message Hraised)
      as [Hdb Hw].
    split_and!; [exact Hdb | exact Hw |].
    unfold run. by rewrite Hdb.
  - destruct (router_patch_upload_failure validator env id user eb st message Hraised)
      as [Hdb Hw].
    split_and!; [exact Hdb | exact Hw |].
    unfold run. by rewrite Hdb.
Qed.

Lemma upload_failure_keeps_posts_witness :
  raised (router_post validatorDefault Sample.envHostDown "u2" Sample.imagePost)
         Sample.store
  = Some (UploadFailure "upload failed") ∧
  raised (router_patch validatorDefault Sample.envHostDown "p3" "u2"
                       Sample.imageEdit)
         Sample.store
  = Some (UploadFailure "upload failed") ∧
  db (run (router_post validatorDefault Sample.envHostDown "u2" Sample.imagePost)
          Sample.store)
  = Sample.store ∧
  db (run (router_patch validatorDefault Sample.envHostDown "p3" "u2"
                        Sample.imageEdit)
          Sample.store)
  = Sample.store.
Proof.
  destruct (upload_failure_keeps_posts validatorDefault Sample.envHostDown
              "p3" "u2" Sample.imagePost Sample.imageEdit Sample.store
              "upload failed") as [Hpost Hpatch].
  split; [reflexivity|]. split; [reflexivity|]. split.
  - apply Hpost. reflexivity.
  - apply Hpatch. reflexivity.
Defined.

(** ** The referential arrays *)

Ltac doc_simpl :=
  cbn [Post._id Post.set_imageSubmission Post.set_textSubmission
       Post.set_linkSubmission newPostOf
       Subreddit._id Subreddit.posts Subreddit.set_posts
       User._id User.posts User.set_posts User.set_postKarma] in *.

Lemma router_post_appends validator env user cb st :
  store_wf st →
  wp (router_post validator env user cb)
     (fun _ w =>
        201 ∈ statuses w →
        ∃ author target sid created,
          cb_subreddit cb = Some sid ∧
          userDocs st !! user = Some author ∧
          subredditDocs st !! sid = Some target ∧
          postDocs (db w) !! Post._id (blankPost env) = Some created ∧
          Post._id created = Post._id (blankPost env) ∧
          subredditDocs (db w) !! sid
          = Some (Subreddit.set_posts
                    (Subreddit.posts target ++ [Post._id (blankPost env)]) target) ∧
          userDocs (db w) !! user
          = Some (User.set_postKarma (User.postKarma author + 1)
                    (User.set_posts
                       (User.posts author ++ [Post._id (blankPost env)]) author)))
     (request st).
Proof.
  intros (Hwp & Hws & Hwu). unfold router_post, request. wp_run.
  all: try (intros Hin; status_absurd Hin).
  all: intros _; destruct (cb_subreddit cb) as [sid|] eqn:Hsid; [|discriminate].
  all: match goal with
       | Hu : userDocs _ !! _ = Some ?a,
         Hs : subredditDocs _ !! ?k = Some ?t |- _ =>
           pose proof (Hwu _ _ Hu) as Huid; pose proof (Hws _ _ Hs) as Hsid';
           exists a, t, k
       end.
  all: cbn beta in *; eexists; doc_simpl.
  all: rewrite Huid, Hsid', !lookup_insert_eq; done.
Qed.

Lemma router_delete_removes env id user st :
  store_wf st →
  wp (router_delete env id user)
     (fun _ w =>
        204 ∈ statuses w →
        ∃ post author sub,
          postDocs st !! id = Some post ∧
          userDocs st !! user = Some author ∧
          Post.author post = user ∧
          subredditDocs st !! Post.subreddit post = Some sub ∧
          postDocs (db w) !! id = None ∧
          subredditDocs (db w) !! Post.subreddit post
          = Some (Subreddit.set_posts
                    (filter (fun p => p ≠ segment env id) (Subreddit.posts sub))
                    sub) ∧
          userDocs (db w) !! user
          = Some (User.set_posts
                    (filter (fun p => p ≠ segment env id) (User.posts author))
                    author))
     (request st).
Proof.
  intros (Hwp & Hws & Hwu). unfold router_delete, request. wp_run.
  all: try (intros Hin; status_absurd Hin).
  intros _.
  match goal with
  | Hp : postDocs _ !! _ = Some ?p,
    Hu : userDocs _ !! _ = Some ?a,
    Hs : subredditDocs _ !! _ = Some ?t |- _ =>
      pose proof (Hwu _ _ Hu) as Huid; pose proof (Hws _ _ Hs) as Hsid;
      exists p, a, t
  end.
  cbn beta in *. doc_simpl.
  rewrite Huid, Hsid, !lookup_insert_eq, lookup_delete_eq.
  split_and!; try done. congruence.
Qed.

Lemma filter_ne_removes (id : Id) (l : list Id) :
  id ∉ filter (fun p => p ≠ id) l.
Proof. rewrite list_elem_of_filter. by intros [? _]. Qed.

(** A successful create request (answered 201) has saved the new post and
    appended its id to the posts array of the target subreddit and to the
    posts array of the author. A successful delete request (answered 204)
    has removed the post and saved both arrays without the entries that
    read as the URL segment: without the id of the post where the URL
    spells it in canonical form. *)
Lemma referential_arrays_canonical
    (validator : Validator) (env : Env) (id user : Id) (cb : CreateBody)
    (st : Store) :
  store_wf st →
  let created := run (router_post validator env user cb) st in
  let deleted := run (router_delete env id user) st in
  let newId := Post._id (blankPost env) in
  (201 ∈ statuses created →
   ∃ author target sid,
     cb_subreddit cb = Some sid ∧
     userDocs st !! user = Some author ∧
     subredditDocs st !! sid = Some target ∧
     is_Some (postDocs (db created) !! newId) ∧
     Subreddit.posts <$> (subredditDocs (db created) !! sid)
     = Some (Subreddit.posts target ++ [newId]) ∧
     User.posts <$> (userDocs (db created) !! user)
     = Some (User.posts author ++ [newId])) ∧
  (204 ∈ statuses deleted →
   ∃ post author sub posts_s posts_u,
     postDocs st !! id = Some post ∧
     userDocs st !! user = Some author ∧
     Post.author post = user ∧
     subredditDocs st !! Post.subreddit post = Some sub ∧
     postDocs (db deleted) !! id = None ∧
     Subreddit.posts <$> (subredditDocs (db deleted) !! Post.subreddit post)
     = Some posts_s ∧
     User.posts <$> (userDocs (db deleted) !! user) = Some posts_u ∧
     posts_s = filter (fun p => p ≠ segment env id) (Subreddit.posts sub) ∧
     posts_u = filter (fun p => p ≠ segment env id) (User.posts author) ∧
     (segment env id = id → (id ∉ posts_s) ∧ (id ∉ posts_u))).
Proof.
  intros Hwf created deleted newId. subst created deleted newId. split.
  - intros H201.
    destruct (router_post_appends validator env user cb st Hwf H201)
      as (author & target & sid & p & Hsid & Hu & Hs & Hp & _ & Hs' & Hu').
    exists author, target, sid. unfold run.
    rewrite Hp, Hs', Hu'. by split_and!.
  - intros H204.
    destruct (router_delete_removes env id user st Hwf H204)
      as (post & author & sub & Hp & Hu & Ha & Hs & Hp' & Hs' & Hu').
    exists post, author, sub. do 2 eexists. unfold run.
    rewrite Hp', Hs', Hu'. split_and!; try done.
    intros ->. split; apply filter_ne_removes.
Qed.

Lemma store_wf_sample : store_wf Sample.store.
Proof. apply (bool_decide_unpack _). vm_compute. exact I. Defined.

Example referential_arrays_sample :
  let created :=
    run (router_post validatorDefault Sample.env "u2" Sample.textPost)
        Sample.store in
  let deleted := run (router_delete Sample.env "p1" "u1") Sample.store in
  statuses created = [201] ∧
  Subreddit.posts <$> (subredditDocs (db created) !! "s1")
  = Some ["p1"; "p3"; "p2"] ∧
  User.posts <$> (userDocs (db created) !! "u2") = Some ["p3"; "p2"] ∧
  statuses deleted = [204] ∧
  postDocs (db deleted) !! "p1" = None ∧
  Subreddit.posts <$> (subredditDocs (db deleted) !! "s1") = Some ["p3"] ∧
  User.posts <$> (userDocs (db deleted) !! "u1") = Some [].
Proof. vm_compute. done. Qed.

(** C4. The claim: a successful delete request removes the id of the
    deleted post from the posts array of its subreddit and from the posts
    array of its author. The route filters both arrays by comparing
    [p.toString()] with the URL segment as it was sent, while the lookup and
    the deletion work on the ObjectId the segment is cast to. For the post
    [5f1b2c3d4e5f6a7b8c9d0e1f], deleted by its author through a URL that
    spells the id [5F1B2C3D4E5F6A7B8C9D0E1F], the request is answered 204
    and the post is gone, but both arrays are saved as they were and still
    hold the id. *)
Theorem delete_keeps_id_spelled_otherwise :
  let w := run (router_delete Shouted.env Shouted.postId Shouted.userId)
               Shouted.store in
  store_wf Shouted.store ∧
  segment Shouted.env Shouted.postId = "5F1B2C3D4E5F6A7B8C9D0E1F" ∧
  statuses w = [204] ∧
  postDocs (db w) !! Shouted.postId = None ∧
  Subreddit.posts <$> (subredditDocs (db w) !! Shouted.subredditId)
  = Some [Shouted.postId] ∧
  User.posts <$> (userDocs (db w) !! Shouted.userId) = Some [Shouted.postId].
Proof.
  split; [apply (bool_decide_unpack _); vm_compute; exact I|].
  vm_compute. done.
Qed.

(** ** What an edit assigns *)

Lemma router_patch_effect validator env id user eb st post :
  postDocs st !! id = Some post →
  wp (router_patch validator env id user eb)
     (fun _ w =>
        (db w = st ∧ 202 ∉ statuses w) ∨
        updatedAtIsDate env = false ∧
        ((Post.postType post = Some "Text" ∧
          ∃ vf, validator (Post.postType post) (eb_textSubmission eb)
                          (eb_linkSubmission eb) (eb_imageSubmission eb) = Valid vf ∧
                db w = withPost st
                         (Post.set_textSubmission (vfTextSubmission vf) post)) ∨
         (Post.postType post = Some "Link" ∧
          ∃ vf, validator (Post.postType post) (eb_textSubmission eb)
                          (eb_linkSubmission eb) (eb_imageSubmission eb) = Valid vf ∧
                db w = withPost st
                         (Post.set_linkSubmission (vfLinkSubmission vf) post)) ∨
         (Post.postType post = Some "Image" ∧
          ∃ url public_id,
            upload env (eb_imageSubmission eb) = Uploaded url public_id ∧
            db w = withPost st
                     (Post.set_imageSubmission
                        (Some (UploadedImage url public_id)) post))))
     (request st).
Proof.
  intros Hp. unfold router_patch, request. wp_run.
  all: simplify_eq.
  all: try (left; split; [done | intros Hin; status_absurd Hin]).
  all: repeat match goal with
         | H : strictEq _ _ = true |- _ => apply strictEq_true in H
         end.
  all: right; split; [done|].
  - left. split; [done|]. eexists. split; [eassumption | reflexivity].
  - right; left. split; [done|]. eexists. split; [eassumption | reflexivity].
  - right; right. split; [done|]. do 2 eexists.
    split; [eassumption | reflexivity].
Qed.

(** After an edit request on an existing post, the stored post has the
    title, author, vote count, voter list (and id, subreddit, type,
    comments, creation time) it had, and the [updatedAt] it had: no request
    stores a time of edit. If the post is a Text post, its linkSubmission
    and imageSubmission are also as they were, and a successful edit (202)
    has set textSubmission to the validated text; symmetrically a Link edit
    only sets linkSubmission and an Image edit only sets imageSubmission
    (to the uploaded image). Where the schema declares [updatedAt] as a
    Date, no edit is answered 202 and the store is as it was. *)
Lemma edit_assigns_own_submission
    (validator : Validator) (env : Env) (id user : Id) (eb : EditBody)
    (st : Store) (post : Post.t) :
  store_wf st → postDocs st !! id = Some post →
  let w := run (router_patch validator env id user eb) st in
  let validated :=
    validator (Post.postType post) (eb_textSubmission eb)
              (eb_linkSubmission eb) (eb_imageSubmission eb) in
  ∃ post',
    postDocs (db w) !! id = Some post' ∧
    editFrame post post' ∧
    Post.updatedAt post' = Post.updatedAt post ∧
    (updatedAtIsDate env = true → db w = st ∧ 202 ∉ statuses w) ∧
    (Post.postType post = Some "Text" →
     Post.linkSubmission post' = Post.linkSubmission post ∧
     Post.imageSubmission post' = Post.imageSubmission post ∧
     (202 ∈ statuses w →
      ∃ vf, validated = Valid vf ∧
            Post.textSubmission post' = vfTextSubmission vf)) ∧
    (Post.postType post = Some "Link" →
     Post.textSubmission post' = Post.textSubmission post ∧
     Post.imageSubmission post' = Post.imageSubmission post ∧
     (202 ∈ statuses w →
      ∃ vf, validated = Valid vf ∧
            Post.linkSubmission post' = vfLinkSubmission vf)) ∧
    (Post.postType post = Some "Image" →
     Post.textSubmission post' = Post.textSubmission post ∧
     Post.linkSubmission post' = Post.linkSubmission post ∧
     (202 ∈ statuses w →
      ∃ url public_id,
        upload env (eb_imageSubmission eb) = Uploaded url public_id ∧
        Post.imageSubmission post' = Some (UploadedImage url public_id))).
Proof.
  intros (Hwp & _ & _) Hp w validated. subst w validated.
  pose proof (Hwp _ _ Hp) as Hid. cbn beta in Hid.
  destruct (router_patch_effect validator env id user eb st post Hp)
    as [[Hdb Hno]|[Hschema [(Hty & vf & Hvf & Hdb)|[(Hty & vf & Hvf & Hdb)
                                          |(Hty & url & pid & Hup & Hdb)]]]];
    unfold run in *; rewrite Hdb.
  - exists post. split; [done|]. split; [done|]. split; [done|].
    split_and!; try done; intros _; split_and!; done.
  - eexists. split; [cbn; rewrite Hid; apply lookup_insert_eq|].
    split; [done|]. split; [done|]. split; [congruence|].
    split_and!; intros Hty'; try congruence.
    split_and!; [done | done |]. intros _. by exists vf.
  - eexists. split; [cbn; rewrite Hid; apply lookup_insert_eq|].
    split; [done|]. split; [done|]. split; [congruence|].
    split_and!; intros Hty'; try congruence.
    split_and!; [done | done |]. intros _. by exists vf.
  - eexists. split; [cbn; rewrite Hid; apply lookup_insert_eq|].
    split; [done|]. split; [done|]. split; [congruence|].
    split_and!; intros Hty'; try congruence.
    split_and!; [done | done |]. intros _. by exists url, pid.
Qed.

(** C10. The claim: an edit assigns the submission field of the post's
    type plus its updatedAt timestamp. The route assigns [Date.now], the
    function, where the time [Date.now()] is meant, so no edit stores a
    time. The author of the Text post [p1] (created and last updated at 10)
    sends the text 'edited':
    - with a schema that has no [updatedAt] path the edit is answered 202
      and the text is stored, with the title, the author, the votes, the
      voters and the other two submissions as they were, but [updatedAt] is
      still 10;
    - with a schema that declares [updatedAt] as a Date the save is
      rejected with the cast error: no answer is sent and the stored post
      is as it was, text included. *)
Theorem edit_stores_no_timestamp :
  let edited :=
    run (router_patch validatorDefault Sample.env "p1" "u1" Sample.edit)
        Sample.store in
  let rejected :=
    router_patch validatorDefault Sample.envDatePath "p1" "u1" Sample.edit in
  postDocs Sample.store !! "p1" = Some Sample.hello ∧
  Post.updatedAt Sample.hello = Millis 10 ∧
  statuses edited = [202] ∧
  postDocs (db edited) !! "p1"
  = Some (Post.set_textSubmission (Some "edited") Sample.hello) ∧
  Post.updatedAt <$> (postDocs (db edited) !! "p1") = Some (Millis 10) ∧
  raised rejected Sample.store = Some CastError ∧
  statuses (run rejected Sample.store) = [] ∧
  writes (run rejected Sample.store) = [] ∧
  db (run rejected Sample.store) = Sample.store.
Proof. vm_compute. done. Qed.

(** ** The listing route *)

Lemma newestFirst_length rank st :
  length (newestFirst rank st) = size (postDocs st).
Proof.
  unfold newestFirst.
  rewrite length_fmap, (Permutation_length (merge_sort_Permutation _ _)).
  apply length_map_to_list.
Qed.

Lemma listingWindow_beyond rank st lim skp :
  0 ≤ skp → Z.of_nat (size (postDocs st)) ≤ skp →
  listingWindow rank st lim skp = [].
Proof.
  intros Hskp Hbeyond. unfold listingWindow.
  rewrite drop_ge by (rewrite newestFirst_length; lia).
  unfold limitTo. destruct (lim =? 0); [done|]. by rewrite take_nil.
Qed.

Lemma listingWindow_length rank st lim skp :
  0 < lim → Z.of_nat (length (listingWindow rank st lim skp)) ≤ lim.
Proof.
  intros Hlim. unfold listingWindow, limitTo.
  destruct (Z.eqb_spec lim 0) as [->|_]; [lia|].
  rewrite length_fmap, length_take. lia.
Qed.

Lemma router_get_new_answers env pg lim st :
  1 ≤ pg → 0 < lim → (∀ n, rejects env n = false) →
  wp (router_get_new env pg lim)
     (fun c w =>
        thrown c = None ∧ db w = st ∧
        sent w =
          let paginated := paginateResults pg lim (Z.of_nat (size (postDocs st))) in
          [{| status := 200;
              body := JsonPage (previous (results paginated))
                               (listingWindow (tieRank env 1) st lim
                                              (startIndex paginated))
                               (next (results paginated)) |}])
     (request st).
Proof.
  intros Hpg Hlim Hrej. unfold router_get_new, request.
  wp_run; try by_reliable Hrej.
  rewrite paginate_startIndex.
  destruct (Z.ltb_spec ((pg - 1) * lim) 0) as [Hneg|_]; [nia|].
  wp_simpl. wp_run. done.
Qed.

(** C8. The pagination calculator is total on its contract domain. With a
    database that answers, the listing route never throws, also on an empty
    collection ([totalCount = 0]); it answers 200 with the previous and next
    references of the calculator. Page 1 has no previous reference. A page
    that starts at or beyond the last item has no next reference and an
    empty result set. [paginate(1, 10, 5)] has neither reference. *)
Theorem listing_total (env : Env) (pg lim : Z) (st : Store) :
  1 ≤ pg → 0 < lim → (∀ n, rejects env n = false) →
  let totalCount := Z.of_nat (size (postDocs st)) in
  let paginated := paginateResults pg lim totalCount in
  let w := run (router_get_new env pg lim) st in
  raised (router_get_new env pg lim) st = None ∧
  (∃ items,
     sent w = [{| status := 200;
                  body := JsonPage (previous (results paginated)) items
                                   (next (results paginated)) |}] ∧
     (totalCount ≤ startIndex paginated → items = []) ∧
     Z.of_nat (length items) ≤ lim) ∧
  (pg = 1 → previous (results paginated) = None) ∧
  (totalCount ≤ startIndex paginated → next (results paginated) = None) ∧
  next (results (paginateResults pg lim 0)) = None ∧
  results (paginateResults 1 10 5) = {| previous := None; next := None |}.
Proof.
  intros Hpg Hlim Hrej totalCount paginated w. subst totalCount paginated w.
  destruct (router_get_new_answers env pg lim st Hpg Hlim Hrej)
    as (Hc & _ & Hsent).
  split_and!.
  - exact Hc.
  - eexists. split; [exact Hsent|]. split.
    + rewrite paginate_startIndex. intros Hbeyond.
      apply listingWindow_beyond; [nia | done].
    + by apply listingWindow_length.
  - intros ->. by apply paginate_previous_None.
  - rewrite paginate_startIndex. intros Hbeyond.
    apply paginate_next_None. nia.
  - apply paginate_next_None. nia.
  - reflexivity.
Qed.

Lemma listing_total_witness :
  (1 ≤ 1 ∧ 0 < 10 ∧ ∀ n, rejects Sample.env n = false) ∧
  raised (router_get_new Sample.env 1 10) emptyStore = None ∧
  sent (run (router_get_new Sample.env 1 10) emptyStore)
  = [{| status := 200; body := JsonPage None [] None |}].
Proof.
  split; [split_and!; [lia | lia | reflexivity]|].
  destruct (listing_total Sample.env 1 10 emptyStore)
    as (Hraised & (items & Hsent & Hempty & _) & Hprev & Hnext & _);
    [lia | lia | reflexivity |].
  split; [exact Hraised|].
  rewrite Hsent, Hempty, Hprev, Hnext; [reflexivity | | reflexivity |];
    vm_compute; discriminate.
Defined.

Example listing_second_page_empty :
  sent (run (router_get_new Sample.env 2 10) Sample.store)
  = [{| status := 200;
        body := JsonPage (Some {| page := 1; limit := 10 |}) [] None |}].
Proof. reflexivity. Qed.

(** ** The store stays well formed *)

Ltac wf_leaf :=
  lazymatch goal with
  | Hwf : store_wf _ |- store_wf _ =>
      destruct Hwf as (Hposts & Hsubs & Husers);
      split_and!; cbn [postDocs subredditDocs userDocs];
      repeat first [ apply map_Forall_insert_2; [reflexivity|]
                   | apply map_Forall_delete ];
      assumption
  end.

Lemma router_post_wf validator env user cb st :
  store_wf st →
  wp (router_post validator env user cb) (fun _ w => store_wf (db w)) (request st).
Proof. intros Hwf. unfold router_post, request. wp_run; wf_leaf. Qed.

Lemma router_patch_wf validator env id user eb st :
  store_wf st →
  wp (router_patch validator env id user eb) (fun _ w => store_wf (db w))
     (request st).
Proof. intros Hwf. unfold router_patch, request. wp_run; wf_leaf. Qed.

Lemma router_delete_wf env id user st :
  store_wf st →
  wp (router_delete env id user) (fun _ w => store_wf (db w)) (request st).
Proof. intros Hwf. unfold router_delete, request. wp_run; wf_leaf. Qed.

(** Every route leaves each document stored under its own [_id], whatever
    the database and the media host do. *)
Lemma routes_preserve_store_wf validator env id user cb eb st :
  store_wf st →
  store_wf (db (run (router_post validator env user cb) st)) ∧
  store_wf (db (run (router_patch validator env id user eb) st)) ∧
  store_wf (db (run (router_delete env id user) st)).
Proof.
  intros Hwf. split_and!.
  - exact (router_post_wf validator env user cb st Hwf).
  - exact (router_patch_wf validator env id user eb st Hwf).
  - exact (router_delete_wf env id user st Hwf).
Qed.

(** * Further properties of the routes *)

(** ** The listing route *)

#[export] Instance listedBefore_total rank : Total (listedBefore rank).
Proof. intros [i p] [j q]. unfold listedBefore. cbn. lia. Qed.

#[export] Instance listedBefore_trans rank : Transitive (listedBefore rank).
Proof. intros [i p] [j q] [k r]. unfold listedBefore. cbn. lia. Qed.

Lemma listedBefore_desc rank a b :
  listedBefore rank a b → createdAt_desc a.2 b.2.
Proof. unfold listedBefore, createdAt_desc. lia. Qed.

Lemma newestFirst_sorted rank st :
  StronglySorted createdAt_desc (newestFirst rank st).
Proof.
  unfold newestFirst.
  apply (StronglySorted_fmap _ (listedBefore rank)); [apply listedBefore_desc|].
  apply StronglySorted_merge_sort; apply _.
Qed.

Lemma newestFirst_stored rank st p :
  p ∈ newestFirst rank st → ∃ k, postDocs st !! k = Some p.
Proof.
  unfold newestFirst.
  intros ([k q] & -> & Hin)%list_elem_of_fmap.
  rewrite merge_sort_Permutation in Hin.
  exists k. by apply elem_of_map_to_list.
Qed.

Lemma limitTo_subseteq {A} (n : Z) (l : list A) : limitTo n l ⊆ l.
Proof. unfold limitTo. destruct (n =? 0); [done | apply subseteq_take]. Qed.

Lemma limitTo_sorted {A} (R : relation A) (n : Z) (l : list A) :
  StronglySorted R l → StronglySorted R (limitTo n l).
Proof.
  unfold limitTo. destruct (n =? 0); [done|].
  rewrite <- (take_drop (Z.abs_nat n) l) at 1. apply StronglySorted_app_1_l.
Qed.

Lemma drop_sorted {A} (R : relation A) (n : nat) (l : list A) :
  StronglySorted R l → StronglySorted R (drop n l).
Proof. rewrite <- (take_drop n l) at 1. apply StronglySorted_app_1_r. Qed.

Lemma listingWindow_stored rank st lim skp item :
  item ∈ listingWindow rank st lim skp →
  ∃ k p, postDocs st !! k = Some p ∧ item = populate st (selectListing p).
Proof.
  unfold listingWindow. intros (p & -> & Hin)%list_elem_of_fmap.
  apply limitTo_subseteq, subseteq_drop, newestFirst_stored in Hin as [k Hk].
  by exists k, p.
Qed.

Lemma listingWindow_sorted rank st lim skp :
  StronglySorted
    (fun a b => Post.createdAt (doc b) ≤ Post.createdAt (doc a))
    (listingWindow rank st lim skp).
Proof.
  unfold listingWindow.
  apply (StronglySorted_fmap _ createdAt_desc); [by intros p q|].
  apply limitTo_sorted, drop_sorted, newestFirst_sorted.
Qed.

(** What a listing request can end in, whatever the database does. *)
Lemma router_get_new_outcomes env pg lim st :
  wp (router_get_new env pg lim)
     (fun _ w =>
        db w = st ∧ writes w = [] ∧
        (sent w = [] ∨
         sent w =
           let paginated := paginateResults pg lim (Z.of_nat (size (postDocs st))) in
           [{| status := 200;
               body := JsonPage (previous (results paginated))
                                (listingWindow (tieRank env 1) st lim
                                               (startIndex paginated))
                                (next (results paginated)) |}]))
     (request st).
Proof.
  unfold router_get_new, request. wp_run; try by eauto.
  destruct (_ <? 0); wp_simpl; wp_run; eauto.
Qed.

(** X1. The listing route only reads: whatever the page, the limit and
    the behaviour of the database, the store after the request is the store
    before it and no write was made. *)
Theorem listing_reads_only (env : Env) (pg lim : Z) (st : Store) :
  db (run (router_get_new env pg lim) st) = st ∧
  writes (run (router_get_new env pg lim) st) = [].
Proof.
  destruct (router_get_new_outcomes env pg lim st) as (Hdb & Hw & _).
  by split.
Qed.

(** X2. Every item of a listing answer is a stored post, shown without its
    text and without its comments, with the username of its author and the
    name of its subreddit looked up in the store. *)
Theorem listing_items_are_stored_posts
    (env : Env) (pg lim : Z) (st : Store) (item : Populated) :
  item ∈ pageItems (run (router_get_new env pg lim) st) →
  ∃ k p,
    postDocs st !! k = Some p ∧
    doc item = Post.set_textSubmission None (Post.set_comments [] p) ∧
    Post.textSubmission (doc item) = None ∧
    Post.comments (doc item) = [] ∧
    Post.title (doc item) = Post.title p ∧
    authorUsername item = User.username <$> userDocs st !! Post.author p ∧
    subredditSubredditName item
    = Subreddit.subredditName <$> subredditDocs st !! Post.subreddit p.
Proof.
  destruct (router_get_new_outcomes env pg lim st) as (_ & _ & [Hs|Hs]);
    unfold pageItems, run; rewrite Hs; cbn.
  - by intros ?%elem_of_nil.
  - intros (k & p & Hk & ->)%listingWindow_stored. by exists k, p.
Qed.

Lemma listing_items_are_stored_posts_witness :
  ∃ item,
    item ∈ pageItems (run (router_get_new Sample.env 1 10) Sample.store) ∧
    Post.title (doc item) = Some "look" ∧
    Post.textSubmission (doc item) = None ∧
    authorUsername item = Some "bob".
Proof.
  eexists. split; [vm_compute; apply list_elem_of_here|].
  destruct (listing_items_are_stored_posts Sample.env 1 10 Sample.store
              (populate Sample.store (selectListing Sample.picture)))
    as (k & p & _ & _ & Htext & _); [vm_compute; apply list_elem_of_here|].
  split; [reflexivity|]. split; [exact Htext | reflexivity].
Defined.

(** X3. The items of a listing answer are ordered newest first: an item
    never comes before one that was created later. *)
Theorem listing_newest_first (env : Env) (pg lim : Z) (st : Store) :
  StronglySorted
    (fun a b => Post.createdAt (doc b) ≤ Post.createdAt (doc a))
    (pageItems (run (router_get_new env pg lim) st)).
Proof.
  destruct (router_get_new_outcomes env pg lim st) as (_ & _ & [Hs|Hs]);
    unfold pageItems, run; rewrite Hs; cbn.
  - constructor.
  - apply listingWindow_sorted.
Qed.

Lemma pageItems_reliable env pg lim st :
  1 ≤ pg → 0 < lim → reliable env →
  pageItems (run (router_get_new env pg lim) st)
  = listingWindow (tieRank env 1) st lim ((pg - 1) * lim).
Proof.
  intros Hpg Hlim Hrel.
  destruct (router_get_new_answers env pg lim st Hpg Hlim Hrel) as (_ & _ & Hs).
  unfold pageItems, run. by rewrite Hs.
Qed.

Lemma listingWindow_take rank st lim skp :
  0 < lim → 0 ≤ skp →
  listingWindow rank st lim skp
  = populate st ∘ selectListing
      <$> take (Z.to_nat lim) (drop (Z.to_nat skp) (newestFirst rank st)).
Proof.
  intros Hlim Hskp. unfold listingWindow, limitTo.
  destruct (Z.eqb_spec lim 0) as [->|_]; [lia|].
  by replace (Z.abs_nat lim) with (Z.to_nat lim) by lia.
Qed.

(** X4. With a database that answers, page [page] of size [limit] holds
    exactly [limit] posts while that many are left after the pages before
    it, and otherwise the posts that are left (none beyond the last
    page). *)
Theorem listing_page_size (env : Env) (pg lim : Z) (st : Store) :
  1 ≤ pg → 0 < lim → reliable env →
  length (pageItems (run (router_get_new env pg lim) st))
  = (Z.to_nat lim `min` (size (postDocs st) - Z.to_nat ((pg - 1) * lim)))%nat.
Proof.
  intros Hpg Hlim Hrel.
  rewrite pageItems_reliable, listingWindow_take by (done || nia).
  by rewrite length_fmap, length_take, length_drop, newestFirst_length.
Qed.

Lemma listing_page_size_witness :
  (1 ≤ 1 ∧ 0 < 1 ∧ reliable Sample.env) ∧
  length (pageItems (run (router_get_new Sample.env 1 1) Sample.store)) = 1%nat ∧
  length (pageItems (run (router_get_new Sample.env 3 1) Sample.store)) = 0%nat.
Proof.
  split; [split_and!; [lia | lia | intros n; reflexivity]|].
  split.
  - rewrite (listing_page_size Sample.env 1 1 Sample.store);
      [reflexivity | lia | lia | intros n; reflexivity].
  - rewrite (listing_page_size Sample.env 3 1 Sample.store);
      [reflexivity | lia | lia | intros n; reflexivity].
Defined.

Lemma NoDup_fmap_eq {A B} (f : A → B) (l : list A) (x y : A) :
  NoDup (f <$> l) → x ∈ l → y ∈ l → f x = f y → x = y.
Proof.
  induction l as [|a l IH]; [by intros _ ?%elem_of_nil|].
  rewrite fmap_cons, NoDup_cons, !elem_of_cons, list_elem_of_fmap.
  intros [Hnew Hrest] [-> | Hx] [-> | Hy] Hf; [done | | | by apply IH].
  - by destruct Hnew; exists y.
  - by destruct Hnew; exists x.
Qed.

(** Where no two posts have the same date, the sort leaves the database no
    choice: every query lists the posts in the same order. *)
Lemma newestFirst_unique rank rank' st :
  distinctDates st → newestFirst rank st = newestFirst rank' st.
Proof.
  unfold distinctDates, newestFirst. rewrite <- list_fmap_compose. intros Hdates.
  f_equal.
  apply (StronglySorted_unique_strong (fun a b => createdAt_desc a.2 b.2)).
  - intros a b Ha Hb Hab Hba. rewrite merge_sort_Permutation in Ha, Hb.
    apply (NoDup_fmap_eq _ _ a b Hdates Ha Hb).
    unfold createdAt_desc in *. cbn. lia.
  - rewrite <- (list_fmap_id (merge_sort _ _)).
    apply (StronglySorted_fmap _ (listedBefore rank)); [apply listedBefore_desc|].
    apply StronglySorted_merge_sort; apply _.
  - rewrite <- (list_fmap_id (merge_sort _ _)).
    apply (StronglySorted_fmap _ (listedBefore rank')); [apply listedBefore_desc|].
    apply StronglySorted_merge_sort; apply _.
  - by rewrite !merge_sort_Permutation.
Qed.

(** X5. Where no two stored posts have the same date, and with a database
    that answers, the pages 1 to [k] of size [limit], each asked for in a
    request of its own and put one after the other, are exactly the
    [k * limit] newest posts in order, whatever order the database gives
    posts of equal date: no post is skipped between two pages and none is
    shown twice. *)
Theorem listing_pages_tile
    (envs : nat → Env) (rank : Id → nat) (lim : Z) (st : Store) (k : nat) :
  0 < lim → (∀ pg, reliable (envs pg)) → distinctDates st →
  concat ((fun pg =>
             pageItems (run (router_get_new (envs pg) (Z.of_nat pg) lim) st))
            <$> seq 1 k)
  = populate st ∘ selectListing
      <$> take (k * Z.to_nat lim) (newestFirst rank st).
Proof.
  intros Hlim Hrel Hdates. induction k as [|k IH]; [done|].
  rewrite seq_S, fmap_app, concat_app, IH. cbn [fmap list_fmap concat plus].
  rewrite app_nil_r, pageItems_reliable, listingWindow_take by (done || nia).
  rewrite (newestFirst_unique (tieRank _ 1) rank st Hdates).
  replace (Z.to_nat ((Z.of_nat (S k) - 1) * lim)) with (k * Z.to_nat lim)%nat by nia.
  rewrite <- fmap_app, take_take_drop. f_equal. f_equal. lia.
Qed.

Lemma listing_pages_tile_witness :
  (0 < 1 ∧ (∀ pg : nat, reliable Sample.env) ∧ distinctDates Sample.store) ∧
  concat ((fun pg =>
             pageItems (run (router_get_new Sample.env (Z.of_nat pg) 1)
                            Sample.store)) <$> seq 1 2)
  = populate Sample.store ∘ selectListing <$> [Sample.picture; Sample.hello].
Proof.
  assert (distinctDates Sample.store) as Hdates
    by (apply (bool_decide_unpack _); vm_compute; exact I).
  split; [split_and!; [lia | intros _ n; reflexivity | exact Hdates]|].
  rewrite (listing_pages_tile (fun _ => Sample.env) (fun _ => 0%nat) 1
             Sample.store 2);
    [reflexivity | lia | intros _ n; reflexivity | exact Hdates].
Defined.

(** With two posts of the same date, two requests may get them in different
    orders from the database: page 1 and page 2 of size 1 then show the
    same post, and the other post is on neither. *)
Example listing_pages_repeat_on_ties :
  ¬ distinctDates Tied.store ∧
  concat ((fun pg =>
             pageItems (run (router_get_new (Tied.envs pg) (Z.of_nat pg) 1)
                            Tied.store)) <$> seq 1 2)
  = populate Tied.store ∘ selectListing <$> [Tied.one; Tied.one].
Proof.
  split; [|vm_compute; reflexivity].
  apply (bool_decide_unpack _). vm_compute. exact I.
Qed.

(** ** The comments route *)

Lemma router_get_comments_reads env id st :
  wp (router_get_comments env id)
     (fun _ w => db w = st ∧ writes w = [] ∧ sent w = [])
     (request st).
Proof.
  unfold router_get_comments, execPopulateComments, request. wp_run; done.
Qed.

Lemma router_get_comments_missing env id st :
  rejects env 0%nat = false → postDocs st !! id = None →
  wp (router_get_comments env id)
     (fun c _ =>
        c = Done (CommentsMessage 404
                    ("Post with ID: '" +:+ segment env id
                     +:+ "' does not exist in database.")))
     (request st).
Proof.
  intros Hrej Hnone.
  unfold router_get_comments, execPopulateComments, request. wp_run; done.
Qed.

Lemma router_get_comments_found env id st post :
  rejects env 0%nat = false → rejects env 1%nat = false →
  postDocs st !! id = Some post →
  wp (router_get_comments env id)
     (fun c _ => c = Done (CommentsJson 200 (populateComments st post)))
     (request st).
Proof.
  intros Hrej0 Hrej1 Hpost.
  unfold router_get_comments, execPopulateComments, request. wp_run.
  congruence.
Qed.

(** X6. The comments route only reads, whatever the database does; when
    the post does not exist and the lookup answers, it replies 404 with a
    message that names the requested id as the URL spells it. *)
Theorem comments_of_missing_post (env : Env) (id : Id) (st : Store) :
  (db ((router_get_comments env id (request st)).2) = st ∧
   writes ((router_get_comments env id (request st)).2) = []) ∧
  (rejects env 0%nat = false → postDocs st !! id = None →
   answer (router_get_comments env id) st
   = Some (CommentsMessage 404
             ("Post with ID: '" +:+ segment env id
              +:+ "' does not exist in database."))).
Proof.
  split.
  - destruct (router_get_comments_reads env id st) as (Hdb & Hw & _). by split.
  - intros Hrej Hnone. unfold answer.
    by rewrite (router_get_comments_missing env id st Hrej Hnone).
Qed.

Lemma comments_of_missing_post_witness :
  answer (router_get_comments Sample.env "p9") Sample.store
  = Some (CommentsMessage 404 "Post with ID: 'p9' does not exist in database.").
Proof.
  destruct (comments_of_missing_post Sample.env "p9" Sample.store) as [_ H].
  apply H; reflexivity.
Defined.

(** X7. When the post exists and the database answers, the comments route
    replies 200 with the post and its comments in their order, each comment
    and each reply carrying the username of the user it names ([None] when
    that user does not exist). *)
Theorem comments_of_post (env : Env) (id : Id) (st : Store) (post : Post.t) :
  rejects env 0%nat = false → rejects env 1%nat = false →
  postDocs st !! id = Some post →
  ∃ populated,
    answer (router_get_comments env id) st = Some (CommentsJson 200 populated) ∧
    postDoc populated = post ∧
    commentDoc <$> commentsPopulated populated = Post.comments post ∧
    ∀ pc, pc ∈ commentsPopulated populated →
      commentedByUsername pc
      = User.username <$> userDocs st !! commentedBy (commentDoc pc) ∧
      replyDoc <$> repliesPopulated pc = replies (commentDoc pc) ∧
      ∀ pr, pr ∈ repliesPopulated pc →
        repliedByUsername pr
        = User.username <$> userDocs st !! repliedBy (replyDoc pr).
Proof.
  intros Hrej0 Hrej1 Hpost. exists (populateComments st post).
  split; [|split; [done|split]].
  - unfold answer.
    by rewrite (router_get_comments_found env id st post Hrej0 Hrej1 Hpost).
  - cbn. rewrite <- list_fmap_compose. apply list_fmap_id.
  - intros pc (c & -> & _)%list_elem_of_fmap. split; [done|]. split.
    + cbn. rewrite <- list_fmap_compose. apply list_fmap_id.
    + by intros pr (r & -> & _)%list_elem_of_fmap.
Qed.

Lemma comments_of_post_witness :
  ∃ populated,
    answer (router_get_comments Sample.env "p5") Thread.store
    = Some (CommentsJson 200 populated) ∧
    postDoc populated = Thread.discussed ∧
    commentDoc <$> commentsPopulated populated = Post.comments Thread.discussed.
Proof.
  destruct (comments_of_post Sample.env "p5" Thread.store Thread.discussed)
    as (populated & Ha & Hp & Hc & _); [reflexivity | reflexivity | reflexivity |].
  exists populated. split_and!; [exact Ha | exact Hp | exact Hc].
Defined.

Example comments_names_resolved :
  answer (router_get_comments Sample.env "p5") Thread.store
  = Some (CommentsJson 200
            {| postDoc := Thread.discussed;
               commentsPopulated :=
                 [{| commentDoc :=
                       {| commentedBy := "u2";
                          replies := [{| repliedBy := "u1" |};
                                      {| repliedBy := "u7" |}] |};
                     commentedByUsername := Some "bob";
                     repliesPopulated :=
                       [{| replyDoc := {| repliedBy := "u1" |};
                           repliedByUsername := Some "alice" |};
                        {| replyDoc := {| repliedBy := "u7" |};
                           repliedByUsername := None |}] |}] |}).
Proof. reflexivity. Qed.

(** ** The create route *)

Lemma router_post_invalid validator env user cb st k :
  validator (cb_postType cb) (cb_textSubmission cb) (cb_linkSubmission cb)
            (cb_imageSubmission cb) = Invalid k →
  wp (router_post validator env user cb)
     (fun c w => thrown c = Some (ValidationFailure k) ∧ sent w = [] ∧
                 db w = st ∧ writes w = [] ∧ awaits w = 0%nat)
     (request st).
Proof.
  intros Hk. unfold router_post, request. wp_run. split_and!; congruence.
Qed.

(** X8. A create request whose submission the validator refuses ends with
    the validation failure before any database call: nothing is looked up,
    nothing is written, no answer is sent by the handler. *)
Theorem create_invalid_submission
    (validator : Validator) (env : Env) (user : Id) (cb : CreateBody)
    (st : Store) (k : FailKind) :
  validator (cb_postType cb) (cb_textSubmission cb) (cb_linkSubmission cb)
            (cb_imageSubmission cb) = Invalid k →
  let w := run (router_post validator env user cb) st in
  raised (router_post validator env user cb) st = Some (ValidationFailure k) ∧
  sent w = [] ∧ db w = st ∧ writes w = [] ∧ awaits w = 0%nat.
Proof. intros Hk. exact (router_post_invalid validator env user cb st k Hk). Qed.

Lemma create_invalid_submission_witness :
  raised (router_post validatorDefault Sample.env "u2"
            {| cb_title := Some "t"; cb_subreddit := Some "s1";
               cb_postType := Some "Link"; cb_textSubmission := None;
               cb_linkSubmission := Some ""; cb_imageSubmission := None |})
         Sample.store
  = Some (ValidationFailure EmptySubmission).
Proof.
  apply (create_invalid_submission validatorDefault Sample.env "u2"
           {| cb_title := Some "t"; cb_subreddit := Some "s1";
              cb_postType := Some "Link"; cb_textSubmission := None;
              cb_linkSubmission := Some ""; cb_imageSubmission := None |}
           Sample.store EmptySubmission).
  reflexivity.
Defined.






(** Rewrites the [_id] of a document found in a well-formed store into the
    key it was found under. *)
Ltac wf_keys Hwp Hws Hwu :=
  repeat match goal with
    | H : postDocs _ !! ?k = Some ?p |- context [Post._id ?p] =>
        let E := fresh "E" in
        pose proof (Hwp k p H) as E; cbn beta in E; rewrite E; clear E
    | H : subredditDocs _ !! ?k = Some ?s |- context [Subreddit._id ?s] =>
        let E := fresh "E" in
        pose proof (Hws k s H) as E; cbn beta in E; rewrite E; clear E
    | H : userDocs _ !! ?k = Some ?u |- context [User._id ?u] =>
        let E := fresh "E" in
        pose proof (Hwu k u H) as E; cbn beta in E; rewrite E; clear E
    end.

Lemma router_post_created validator env user cb st :
  store_wf st →
  wp (router_post validator env user cb)
     (fun _ w =>
        201 ∈ statuses w →
        ∃ author target sid vf p,
          userDocs st !! user = Some author ∧
          cb_subreddit cb = Some sid ∧
          subredditDocs st !! sid = Some target ∧
          validator (cb_postType cb) (cb_textSubmission cb)
                    (cb_linkSubmission cb) (cb_imageSubmission cb) = Valid vf ∧
          (p = newPostOf env cb author vf ∧ cb_postType cb ≠ Some "Image" ∨
           ∃ url public_id,
             cb_postType cb = Some "Image" ∧
             upload env (cb_imageSubmission cb) = Uploaded url public_id ∧
             p = Post.set_imageSubmission (Some (UploadedImage url public_id))
                   (newPostOf env cb author vf)) ∧
          postDocs (db w) !! Post._id (blankPost env) = Some p ∧
          sent w = [{| status := 201;
                       body := JsonPopulated
                                 {| doc := p;
                                    authorUsername := Some (User.username author);
                                    subredditSubredditName :=
                                      Some (Subreddit.subredditName target) |} |}])
     (request st).
Proof.
  intros (Hwp & Hws & Hwu). unfold router_post, request. wp_run.
  all: try (intros Hin; status_absurd Hin).
  all: intros _; destruct (cb_subreddit cb) as [sid|] eqn:Hsid; [|discriminate].
  all: match goal with
       | Hu : userDocs _ !! _ = Some ?a,
         Hs : subredditDocs _ !! ?k = Some ?t,
         Hv : _ = Valid ?vf |- _ =>
           exists a, t, k, vf
       end.
  all: eexists; split_and!; try done.
  - right. do 2 eexists. split_and!; [by apply strictEq_true | eassumption | done].
  - doc_simpl. apply lookup_insert_eq.
  - unfold populate.
    cbn [Post.author Post.subreddit default Post.set_imageSubmission newPostOf
         userDocs subredditDocs Subreddit._id Subreddit.set_posts
         User._id User.set_posts User.set_postKarma].
    rewrite Hsid. cbn [default]. wf_keys Hwp Hws Hwu.
    by rewrite !lookup_insert_eq.
  - left. split; [done|]. by apply strictEq_false.
  - doc_simpl. apply lookup_insert_eq.
  - unfold populate.
    cbn [Post.author Post.subreddit default Post.set_imageSubmission newPostOf
         userDocs subredditDocs Subreddit._id Subreddit.set_posts
         User._id User.set_posts User.set_postKarma].
    rewrite Hsid. cbn [default]. wf_keys Hwp Hws Hwu.
    by rewrite !lookup_insert_eq.
Qed.

(** X10. A create request answered 201 has stored, under the fresh id, a
    post whose author is the requesting user, whose only voter is that
    user, whose vote count is 1, whose subreddit is the requested one, with
    the requested title; for an Image post the stored image is the link
    and id returned by the media host, not the raw payload. The answer
    carries that stored post with the author's username and the subreddit's
    name. *)
Theorem create_stores_post
    (validator : Validator) (env : Env) (user : Id) (cb : CreateBody)
    (st : Store) :
  store_wf st →
  let w := run (router_post validator env user cb) st in
  201 ∈ statuses w →
  ∃ author target sid p,
    userDocs st !! user = Some author ∧
    cb_subreddit cb = Some sid ∧
    subredditDocs st !! sid = Some target ∧
    postDocs (db w) !! Post._id (blankPost env) = Some p ∧
    Post.author p = user ∧
    Post.upvotedBy p = [user] ∧
    Post.pointsCount p = 1 ∧
    Post.subreddit p = sid ∧
    (∀ t, cb_title cb = Some t → Post.title p = Some t) ∧
    (cb_postType cb = Some "Image" →
     ∃ url public_id,
       upload env (cb_imageSubmission cb) = Uploaded url public_id ∧
       Post.imageSubmission p = Some (UploadedImage url public_id)) ∧
    sent w = [{| status := 201;
                 body := JsonPopulated
                           {| doc := p;
                              authorUsername := Some (User.username author);
                              subredditSubredditName :=
                                Some (Subreddit.subredditName target) |} |}].
Proof.
  intros Hwf w H201. subst w.
  destruct (router_post_created validator env user cb st Hwf H201)
    as (author & target & sid & vf & p & Hu & Hsid & Hs & Hvf & Hp & Hlookup & Hsent).
  destruct Hwf as (_ & _ & Hwu). pose proof (Hwu _ _ Hu) as Huid. cbn beta in Huid.
  exists author, target, sid, p.
  assert (Post.author p = user ∧ Post.upvotedBy p = [user] ∧
          Post.pointsCount p = 1 ∧ Post.subreddit p = sid ∧
          ∀ t, cb_title cb = Some t → Post.title p = Some t) as (? & ? & ? & ? & ?).
  { destruct Hp as [[-> _]|(url & pid & _ & _ & ->)]; cbn; rewrite Huid, Hsid;
      (split_and!; [done | done | done | done |]); by intros t ->. }
  split_and!; try done.
  intros Himage. destruct Hp as [[_ Hne]|(url & pid & _ & Hup & ->)]; [done|].
  by exists url, pid.
Qed.

Lemma create_stores_post_witness :
  store_wf Sample.store ∧
  ∃ p,
    postDocs (db (run (router_post validatorDefault Sample.env "u2"
                                   Sample.imagePost) Sample.store)) !! "p2"
    = Some p ∧
    Post.author p = "u2" ∧ Post.upvotedBy p = ["u2"] ∧ Post.pointsCount p = 1 ∧
    Post.imageSubmission p = Some (UploadedImage "http://img/1" "img1").
Proof.
  split; [exact store_wf_sample|].
  destruct (create_stores_post validatorDefault Sample.env "u2" Sample.imagePost
              Sample.store store_wf_sample)
    as (author & target & sid & p & _ & _ & _ & Hp & Ha & Hv & Hc & _ & _ & Hi & _);
    [vm_compute; apply list_elem_of_here|].
  exists p. split_and!; [exact Hp | exact Ha | exact Hv | exact Hc |].
  destruct (Hi eq_refl) as (url & pid & Hup & ->).
  injection Hup as <- <-. reflexivity.
Defined.

(** X11. A create request answered 201 has given the author exactly one
    point of post karma, and has changed neither the author's username nor
    the subreddit's name. *)
Theorem create_gives_karma
    (validator : Validator) (env : Env) (user : Id) (cb : CreateBody)
    (st : Store) :
  store_wf st →
  let w := run (router_post validator env user cb) st in
  201 ∈ statuses w →
  ∃ author author' target target' sid,
    userDocs st !! user = Some author ∧
    userDocs (db w) !! user = Some author' ∧
    User.postKarma author' = User.postKarma author + 1 ∧
    User.username author' = User.username author ∧
    cb_subreddit cb = Some sid ∧
    subredditDocs st !! sid = Some target ∧
    subredditDocs (db w) !! sid = Some target' ∧
    Subreddit.subredditName target' = Subreddit.subredditName target.
Proof.
  intros Hwf w H201. subst w.
  destruct (router_post_appends validator env user cb st Hwf H201)
    as (author & target & sid & p & Hsid & Hu & Hs & _ & _ & Hs' & Hu').
  exists author. eexists. exists target. eexists. exists sid.
  split_and!; [exact Hu | exact Hu' | done | done | exact Hsid | exact Hs
              | exact Hs' | done].
Qed.

Lemma create_gives_karma_witness :
  store_wf Sample.store ∧
  User.postKarma <$>
    (userDocs (db (run (router_post validatorDefault Sample.env "u2"
                                    Sample.textPost) Sample.store)) !! "u2")
  = Some 2.
Proof.
  split; [exact store_wf_sample|].
  destruct (create_gives_karma validatorDefault Sample.env "u2" Sample.textPost
              Sample.store store_wf_sample)
    as (author & author' & _ & _ & _ & Hu & Hu' & Hk & _);
    [vm_compute; apply list_elem_of_here|].
  rewrite Hu'. cbn. rewrite Hk. injection Hu as <-. reflexivity.
Defined.

Lemma router_post_frame validator env user cb st :
  store_wf st →
  wp (router_post validator env user cb)
     (fun _ w =>
        (∀ k, k ≠ Post._id (blankPost env) →
              postDocs (db w) !! k = postDocs st !! k) ∧
        (∀ k, cb_subreddit cb ≠ Some k →
              subredditDocs (db w) !! k = subredditDocs st !! k) ∧
        (∀ k, k ≠ user → userDocs (db w) !! k = userDocs st !! k))
     (request st).
Proof.
  intros (Hwp & Hws & Hwu). unfold router_post, request. wp_run.
  all: try done.
  all: destruct (cb_subreddit cb) as [sid|] eqn:Hsid; [|discriminate].
  all: doc_simpl; wf_keys Hwp Hws Hwu.
  all: split_and!; intros k Hk; rewrite ?lookup_insert_ne; congruence.
Qed.

(** X12. Whatever happens during a create request, the only documents it
    can change are the post under the fresh id, the requested subreddit and
    the requesting user: every other post, subreddit and user is left as it
    was. *)
Theorem create_touches_only_its_documents
    (validator : Validator) (env : Env) (user : Id) (cb : CreateBody)
    (st : Store) :
  store_wf st →
  let w := run (router_post validator env user cb) st in
  (∀ k, k ≠ Post._id (blankPost env) → postDocs (db w) !! k = postDocs st !! k) ∧
  (∀ k, cb_subreddit cb ≠ Some k →
        subredditDocs (db w) !! k = subredditDocs st !! k) ∧
  (∀ k, k ≠ user → userDocs (db w) !! k = userDocs st !! k).
Proof. intros Hwf. exact (router_post_frame validator env user cb st Hwf). Qed.

Lemma create_touches_only_its_documents_witness :
  store_wf Sample.store ∧
  postDocs (db (run (router_post validatorDefault Sample.env "u2"
                                 Sample.textPost) Sample.store)) !! "p1"
  = Some Sample.hello ∧
  userDocs (db (run (router_post validatorDefault Sample.env "u2"
                                 Sample.textPost) Sample.store)) !! "u1"
  = Some Sample.alice.
Proof.
  split; [exact store_wf_sample|].
  destruct (create_touches_only_its_documents validatorDefault Sample.env "u2"
              Sample.textPost Sample.store store_wf_sample) as (Hp & _ & Hu).
  split; [rewrite Hp | rewrite Hu]; (reflexivity || discriminate).
Defined.

Lemma router_post_save_then_failure validator env user cb st vf author sid target :
  validator (cb_postType cb) (cb_textSubmission cb) (cb_linkSubmission cb)
            (cb_imageSubmission cb) = Valid vf →
  cb_postType cb ≠ Some "Image" →
  rejects env 0%nat = false → rejects env 1%nat = false →
  rejects env 2%nat = false → rejects env 3%nat = true →
  userDocs st !! user = Some author →
  cb_subreddit cb = Some sid → subredditDocs st !! sid = Some target →
  wp (router_post validator env user cb)
     (fun c w =>
        thrown c = Some DbFailure ∧ sent w = [] ∧
        writes w = [PostSaved (Post._id (blankPost env))] ∧
        db w = withPost st (newPostOf env cb author vf))
     (request st).
Proof.
  intros Hvf Hty R0 R1 R2 R3 Hu Hsid Hs. apply strictEq_false in Hty.
  unfold router_post, request. wp_run.
  all: try (rewrite Hsid in *; congruence).
  match goal with
  | H : _ = Valid ?vf0 |- context [newPostOf _ _ _ ?vf0] =>
      assert (vf0 = vf) as -> by congruence
  end.
  simplify_eq. split_and!; reflexivity.
Qed.

(** X13. The create route is not transactional. When the post has been
    saved and the save of the subreddit is then rejected, the request ends
    with that failure and no answer, the post stays stored, and neither the
    subreddit nor the author has been updated: the new post is in the store
    but in no posts array. *)
Theorem create_not_transactional
    (validator : Validator) (env : Env) (user : Id) (cb : CreateBody)
    (st : Store) (vf : ValidatedFields) (author : User.t) (sid : Id)
    (target : Subreddit.t) :
  validator (cb_postType cb) (cb_textSubmission cb) (cb_linkSubmission cb)
            (cb_imageSubmission cb) = Valid vf →
  cb_postType cb ≠ Some "Image" →
  rejects env 0%nat = false → rejects env 1%nat = false →
  rejects env 2%nat = false → rejects env 3%nat = true →
  userDocs st !! user = Some author →
  cb_subreddit cb = Some sid → subredditDocs st !! sid = Some target →
  let w := run (router_post validator env user cb) st in
  raised (router_post validator env user cb) st = Some DbFailure ∧
  sent w = [] ∧
  writes w = [PostSaved (Post._id (blankPost env))] ∧
  is_Some (postDocs (db w) !! Post._id (blankPost env)) ∧
  subredditDocs (db w) = subredditDocs st ∧
  userDocs (db w) = userDocs st ∧
  (Post._id (blankPost env) ∉ Subreddit.posts target → ¬ allListed (db w)).
Proof.
  intros Hvf Hty R0 R1 R2 R3 Hu Hsid Hs w. subst w.
  destruct (router_post_save_then_failure validator env user cb st vf author sid
              target Hvf Hty R0 R1 R2 R3 Hu Hsid Hs) as (Hc & Hsent & Hw & Hdb).
  unfold run. rewrite Hdb. split_and!; try done.
  - cbn. rewrite lookup_insert_eq. by eexists.
  - intros Hnotin Hlisted.
    destruct (Hlisted (Post._id (blankPost env)) (newPostOf env cb author vf))
      as [(s & Hs' & Hin) _].
    + cbn. apply lookup_insert_eq.
    + cbn in Hs'. rewrite Hsid in Hs'. cbn in Hs'. congruence.
Qed.

Lemma create_not_transactional_witness :
  let w := run (router_post validatorDefault envSubredditSaveFails "u2"
                            Sample.textPost) Sample.store in
  is_Some (postDocs (db w) !! "p2") ∧
  subredditDocs (db w) = subredditDocs Sample.store ∧
  ¬ allListed (db w).
Proof.
  destruct (create_not_transactional validatorDefault envSubredditSaveFails "u2"
              Sample.textPost Sample.store
              {| vfPostType := None; vfTextSubmission := Some "words";
                 vfLinkSubmission := None; vfImageSubmission := None |}
              Sample.bob "s1" Sample.rocq)
    as (_ & _ & _ & Hp & Hs & _ & Hl);
    [reflexivity | discriminate | reflexivity | reflexivity | reflexivity
    | reflexivity | reflexivity | reflexivity | reflexivity |].
  split_and!; [exact Hp | exact Hs |].
  apply Hl. cbn. intros Hin.
  repeat (apply elem_of_cons in Hin as [Hin|Hin]; [discriminate Hin|]).
  by apply elem_of_nil in Hin.
Defined.

(** ** The stores a create request can leave behind *)

Ltac status_absent := let Hin := fresh "Hin" in intros Hin; status_absurd Hin.

Lemma router_post_stores validator env user cb st :
  store_wf st →
  wp (router_post validator env user cb)
     (fun _ w =>
        (db w = st ∧ 201 ∉ statuses w) ∨
        ∃ author target sid p,
          userDocs st !! user = Some author ∧
          cb_subreddit cb = Some sid ∧
          subredditDocs st !! sid = Some target ∧
          Post._id p = Post._id (blankPost env) ∧
          Post.author p = user ∧ Post.subreddit p = sid ∧
          ((db w = withPost st p ∧ 201 ∉ statuses w) ∨
           (db w = withSubreddit (withPost st p) (listedIn (Post._id p) target) ∧
            201 ∉ statuses w) ∨
           db w = withUser
                    (withSubreddit (withPost st p) (listedIn (Post._id p) target))
                    (creditedWith (Post._id p) author)))
     (request st).
Proof.
  intros (Hwp & Hws & Hwu). unfold router_post, request. wp_run.
  all: try (left; split; [done | status_absent]).
  all: right; destruct (cb_subreddit cb) as [sid|] eqn:Hsid; [|discriminate].
  all: match goal with
       | Hu : userDocs _ !! _ = Some ?a,
         Hs : subredditDocs _ !! ?k = Some ?t |- _ =>
           pose proof (Hwu _ _ Hu) as Huid; pose proof (Hws _ _ Hs) as Hsid';
           cbn beta in Huid, Hsid'; exists a, t, k
       end.
  all: match goal with
       | |- context [<[_ := ?p]> (postDocs _)] => exists p
       end.
  all: split_and!; try done.
  all: try (cbn; rewrite ?Hsid; done).
  all: first [ left; split; [reflexivity | status_absent]
             | right; left; split; [reflexivity | status_absent]
             | right; right; reflexivity ].
Qed.

(** ** Referential integrity, one write at a time *)

Lemma noDangling_withPost st p :
  noDangling st →
  (∀ p0, postDocs st !! Post._id p = Some p0 →
         Post.subreddit p = Post.subreddit p0 ∧ Post.author p = Post.author p0) →
  noDangling (withPost st p).
Proof.
  intros [Hsub Husr] Hsame. split; cbn.
  - intros sid s pid Hs Hin. destruct (Hsub sid s pid Hs Hin) as (p0 & Hp0 & Hp0s).
    destruct (decide (Post._id p = pid)) as [<-|Hne].
    + exists p. rewrite lookup_insert_eq. split; [done|].
      destruct (Hsame p0 Hp0) as [-> _]. done.
    + exists p0. by rewrite lookup_insert_ne.
  - intros uid u pid Hu Hin. destruct (Husr uid u pid Hu Hin) as (p0 & Hp0 & Hp0a).
    destruct (decide (Post._id p = pid)) as [<-|Hne].
    + exists p. rewrite lookup_insert_eq. split; [done|].
      destruct (Hsame p0 Hp0) as [_ ->]. done.
    + exists p0. by rewrite lookup_insert_ne.
Qed.

Lemma noDangling_listedIn st target pid p :
  noDangling st →
  subredditDocs st !! Subreddit._id target = Some target →
  postDocs st !! pid = Some p → Post.subreddit p = Subreddit._id target →
  noDangling (withSubreddit st (listedIn pid target)).
Proof.
  intros [Hsub Husr] Ht Hp Hps. split; cbn; [|done].
  intros sid s q. rewrite lookup_insert_Some.
  intros [[<- <-]|[Hne Hs]] Hin; [|by eapply Hsub].
  cbn in Hin. apply elem_of_app in Hin as [Hin|Hin%list_elem_of_singleton].
  - by eapply Hsub.
  - subst q. by exists p.
Qed.

Lemma noDangling_creditedWith st author pid p :
  noDangling st →
  userDocs st !! User._id author = Some author →
  postDocs st !! pid = Some p → Post.author p = User._id author →
  noDangling (withUser st (creditedWith pid author)).
Proof.
  intros [Hsub Husr] Ha Hp Hpa. split; cbn; [done|].
  intros uid u q. rewrite lookup_insert_Some.
  intros [[<- <-]|[Hne Hu]] Hin; [|by eapply Husr].
  cbn in Hin. apply elem_of_app in Hin as [Hin|Hin%list_elem_of_singleton].
  - by eapply Husr.
  - subst q. by exists p.
Qed.

Lemma noDangling_deleted st id post sub author :
  noDangling st →
  postDocs st !! id = Some post →
  Post.subreddit post = Subreddit._id sub →
  Post.author post = User._id author →
  subredditDocs st !! Subreddit._id sub = Some sub →
  userDocs st !! User._id author = Some author →
  noDangling (withUser (withSubreddit (withoutPost st id) (unlistedFrom id sub))
                       (relievedOf id author)).
Proof.
  intros [Hsub Husr] Hp Hps Hpa Hs Hu. split; cbn.
  - intros sid s q. rewrite lookup_insert_Some.
    intros [[<- <-]|[Hne Hs']] Hin.
    + cbn in Hin. apply list_elem_of_filter in Hin as [Hq Hin].
      destruct (Hsub _ _ _ Hs Hin) as (p0 & Hp0 & Hp0s).
      exists p0. by rewrite lookup_delete_ne.
    + destruct (Hsub _ _ _ Hs' Hin) as (p0 & Hp0 & Hp0s).
      exists p0. rewrite lookup_delete_ne; [done|].
      intros <-. congruence.
  - intros uid u q. rewrite lookup_insert_Some.
    intros [[<- <-]|[Hne Hu']] Hin.
    + cbn in Hin. apply list_elem_of_filter in Hin as [Hq Hin].
      destruct (Husr _ _ _ Hu Hin) as (p0 & Hp0 & Hp0a).
      exists p0. by rewrite lookup_delete_ne.
    + destruct (Husr _ _ _ Hu' Hin) as (p0 & Hp0 & Hp0a).
      exists p0. rewrite lookup_delete_ne; [done|].
      intros <-. congruence.
Qed.

Lemma allListed_withPost st p p0 :
  allListed st →
  postDocs st !! Post._id p = Some p0 →
  Post.subreddit p = Post.subreddit p0 → Post.author p = Post.author p0 →
  allListed (withPost st p).
Proof.
  intros Hl Hp0 Hs Ha pid q. cbn. rewrite lookup_insert_Some.
  intros [[<- <-]|[Hne Hq]]; [|by apply Hl].
  rewrite Hs, Ha. by apply Hl.
Qed.

Lemma allListed_created st p target author :
  allListed st →
  subredditDocs st !! Subreddit._id target = Some target →
  userDocs st !! User._id author = Some author →
  Post.subreddit p = Subreddit._id target → Post.author p = User._id author →
  allListed (withUser (withSubreddit (withPost st p) (listedIn (Post._id p) target))
                      (creditedWith (Post._id p) author)).
Proof.
  intros Hl Ht Ha Hps Hpa pid q. cbn. rewrite lookup_insert_Some.
  intros [[<- <-]|[Hne Hq]].
  - rewrite Hps, Hpa, !lookup_insert_eq. split; eexists; (split; [done|]);
      cbn; apply elem_of_app; right; apply list_elem_of_here.
  - destruct (Hl pid q Hq) as [(s & Hs & Hins) (u & Hu & Hinu)]. split.
    + destruct (decide (Subreddit._id target = Post.subreddit q)) as [E|E].
      * rewrite <- E, lookup_insert_eq. eexists. split; [done|].
        cbn. apply elem_of_app. left. congruence.
      * exists s. by rewrite lookup_insert_ne.
    + destruct (decide (User._id author = Post.author q)) as [E|E].
      * rewrite <- E, lookup_insert_eq. eexists. split; [done|].
        cbn. apply elem_of_app. left. congruence.
      * exists u. by rewrite lookup_insert_ne.
Qed.

Lemma allListed_withoutPost st id : allListed st → allListed (withoutPost st id).
Proof.
  intros Hl pid q. cbn. rewrite lookup_delete_Some. intros [_ Hq]. by apply Hl.
Qed.

Lemma allListed_unlistedFrom st id sub :
  allListed st → postDocs st !! id = None →
  subredditDocs st !! Subreddit._id sub = Some sub →
  allListed (withSubreddit st (unlistedFrom id sub)).
Proof.
  intros Hl Hgone Hs pid q Hq. cbn in *.
  destruct (Hl pid q Hq) as [(s & Hs' & Hin) Hu]. split; [|done].
  destruct (decide (Subreddit._id sub = Post.subreddit q)) as [E|E].
  - rewrite <- E, lookup_insert_eq. eexists. split; [done|].
    cbn. apply list_elem_of_filter. split; [congruence|].
    rewrite <- E in Hs'. congruence.
  - exists s. by rewrite lookup_insert_ne.
Qed.

Lemma allListed_relievedOf st id author :
  allListed st → postDocs st !! id = None →
  userDocs st !! User._id author = Some author →
  allListed (withUser st (relievedOf id author)).
Proof.
  intros Hl Hgone Ha pid q Hq. cbn in *.
  destruct (Hl pid q Hq) as [Hs (u & Hu & Hin)]. split; [done|].
  destruct (decide (User._id author = Post.author q)) as [E|E].
  - rewrite <- E, lookup_insert_eq. eexists. split; [done|].
    cbn. apply list_elem_of_filter. split; [congruence|].
    rewrite <- E in Hu. congruence.
  - exists u. by rewrite lookup_insert_ne.
Qed.

Lemma sample_noDangling : noDangling Sample.store.
Proof.
  split; unfold Sample.store; cbn [subredditDocs userDocs postDocs].
  - intros sid s pid [<- <-]%lookup_singleton_Some Hin.
    cbn [Subreddit.posts Sample.rocq] in Hin.
    apply elem_of_cons in Hin as [->|Hin]; [by exists Sample.hello|].
    apply list_elem_of_singleton in Hin as ->. by exists Sample.picture.
  - intros uid u pid Hu Hin.
    apply lookup_insert_Some in Hu as [[<- <-]|[_ [<- <-]%lookup_singleton_Some]];
      cbn [User.posts Sample.bob Sample.alice] in Hin;
      apply list_elem_of_singleton in Hin as ->.
    + by exists Sample.picture.
    + by exists Sample.hello.
Qed.

Lemma sample_allListed : allListed Sample.store.
Proof.
  intros pid p. unfold Sample.store at 1. cbn [postDocs]. intros Hp.
  apply lookup_insert_Some in Hp as [[<- <-]|[_ [<- <-]%lookup_singleton_Some]].
  - split; [exists Sample.rocq | exists Sample.bob]; (split; [reflexivity|]);
      cbn; set_solver.
  - split; [exists Sample.rocq | exists Sample.alice]; (split; [reflexivity|]);
      cbn; set_solver.
Qed.

(** X14. A create request never leaves a dangling id, whatever fails on
    the way: if no posts array named a missing post before and the new id
    is fresh, no posts array names a missing post afterwards, also when the
    request breaks off between its writes (the post is saved before the
    arrays are extended). *)
Theorem create_never_dangles
    (validator : Validator) (env : Env) (user : Id) (cb : CreateBody)
    (st : Store) :
  store_wf st → noDangling st →
  postDocs st !! Post._id (blankPost env) = None →
  noDangling (db (run (router_post validator env user cb) st)).
Proof.
  intros Hwf Hnd Hfresh.
  destruct (router_post_stores validator env user cb st Hwf)
    as [[Hdb _]|(author & target & sid & p & Hu & Hsid & Hs & Hid & Hpa & Hps & Hdb)];
    unfold run; [by rewrite Hdb|].
  destruct Hwf as (_ & Hws & Hwu).
  pose proof (Hws _ _ Hs) as Hsid'. pose proof (Hwu _ _ Hu) as Huid.
  cbn beta in Hsid', Huid.
  assert (noDangling (withPost st p)) as H1.
  { apply noDangling_withPost; [done|]. rewrite Hid, Hfresh. by intros p0 [=]. }
  assert (noDangling (withSubreddit (withPost st p) (listedIn (Post._id p) target)))
    as H2.
  { apply (noDangling_listedIn _ _ _ p); [done | cbn; by rewrite Hsid' | | congruence].
    cbn. apply lookup_insert_eq. }
  destruct Hdb as [[-> _]|[[-> _]| ->]]; [done | done |].
  apply (noDangling_creditedWith _ _ _ p); [done | cbn; by rewrite Huid | | congruence].
  cbn. apply lookup_insert_eq.
Qed.

Lemma create_never_dangles_witness :
  (store_wf Sample.store ∧ noDangling Sample.store ∧
   postDocs Sample.store !! "p2" = None) ∧
  noDangling (db (run (router_post validatorDefault envSubredditSaveFails "u2"
                                   Sample.textPost) Sample.store)).
Proof.
  split; [split_and!; [exact store_wf_sample | exact sample_noDangling | reflexivity]|].
  apply (create_never_dangles validatorDefault envSubredditSaveFails "u2"
           Sample.textPost Sample.store store_wf_sample sample_noDangling).
  reflexivity.
Defined.

(** X15. A create request answered 201 keeps every post listed: if every
    post was in the posts array of its subreddit and of its author before,
    the same holds afterwards, the new post included. *)
Theorem create_keeps_posts_listed
    (validator : Validator) (env : Env) (user : Id) (cb : CreateBody)
    (st : Store) :
  store_wf st → allListed st →
  201 ∈ statuses (run (router_post validator env user cb) st) →
  allListed (db (run (router_post validator env user cb) st)).
Proof.
  intros Hwf Hl H201.
  destruct (router_post_stores validator env user cb st Hwf)
    as [[_ Hno]|(author & target & sid & p & Hu & Hsid & Hs & Hid & Hpa & Hps & Hdb)];
    [done|].
  destruct Hwf as (_ & Hws & Hwu).
  pose proof (Hws _ _ Hs) as Hsid'. pose proof (Hwu _ _ Hu) as Huid.
  cbn beta in Hsid', Huid.
  destruct Hdb as [[_ Hno]|[[_ Hno]|Hdb]]; [done | done |].
  unfold run. rewrite Hdb.
  apply allListed_created; [done | by rewrite Hsid' | by rewrite Huid
                           | congruence | congruence].
Qed.

Lemma create_keeps_posts_listed_witness :
  (store_wf Sample.store ∧ allListed Sample.store) ∧
  allListed (db (run (router_post validatorDefault Sample.env "u2" Sample.textPost)
                     Sample.store)).
Proof.
  split; [split; [exact store_wf_sample | exact sample_allListed]|].
  apply (create_keeps_posts_listed validatorDefault Sample.env "u2" Sample.textPost
           Sample.store store_wf_sample sample_allListed).
  vm_compute. apply list_elem_of_here.
Defined.

(** ** The edit route *)

Lemma router_patch_stores validator env id user eb st :
  wp (router_patch validator env id user eb)
     (fun _ w =>
        (db w = st ∧ writes w = [] ∧ 202 ∉ statuses w) ∨
        ∃ post p',
          postDocs st !! id = Some post ∧
          Post._id p' = Post._id post ∧
          Post.subreddit p' = Post.subreddit post ∧
          Post.author p' = Post.author post ∧
          db w = withPost st p' ∧
          writes w = [PostSaved (Post._id p')] ∧
          sent w = [{| status := 202; body := JsonPost p' |}])
     (request st).
Proof.
  unfold router_patch, request. wp_run.
  all: try (left; split_and!; [done | done | status_absent]).
  all: right;
    match goal with
    | Hp : postDocs _ !! _ = Some ?t |- context [<[_ := ?p]> (postDocs _)] =>
        exists t, p
    end;
    split_and!; try done; reflexivity.
Qed.

(** X16. An edit request changes the store exactly when it is answered
    202. Without a 202 (refusal, validation failure, failed upload, rejected
    database call) nothing has been written; with a 202 the one write is the
    save of the post, and the answer shows the post exactly as it is now
    stored. *)
Theorem edit_writes_iff_accepted
    (validator : Validator) (env : Env) (id user : Id) (eb : EditBody)
    (st : Store) :
  store_wf st →
  let w := run (router_patch validator env id user eb) st in
  (202 ∉ statuses w → db w = st ∧ writes w = []) ∧
  (202 ∈ statuses w →
   ∃ p', sent w = [{| status := 202; body := JsonPost p' |}] ∧
         postDocs (db w) !! id = Some p' ∧
         writes w = [PostSaved id]).
Proof.
  intros (Hwp & _ & _) w. subst w.
  destruct (router_patch_stores validator env id user eb st)
    as [(Hdb & Hw & Hno)|(post & p' & Hp & Hid & _ & _ & Hdb & Hw & Hsent)].
  - split; [done|]. intros Hin. by destruct Hno.
  - pose proof (Hwp _ _ Hp) as Hkey. cbn beta in Hkey. split.
    + intros Hno. destruct Hno. unfold statuses, run. rewrite Hsent.
      apply list_elem_of_here.
    + intros _. exists p'. unfold run. rewrite Hdb, Hw, Hid, Hkey.
      split_and!; [done | | done]. cbn. rewrite Hid, Hkey. apply lookup_insert_eq.
Qed.

Lemma edit_writes_iff_accepted_witness :
  store_wf Sample.store ∧
  db (run (router_patch validatorDefault Sample.envHostDown "p3" "u2"
                        Sample.imageEdit) Sample.store)
  = Sample.store ∧
  writes (run (router_patch validatorDefault Sample.env "p3" "u2"
                            Sample.imageEdit) Sample.store)
  = [PostSaved "p3"].
Proof.
  split; [exact store_wf_sample|]. split.
  - destruct (edit_writes_iff_accepted validatorDefault Sample.envHostDown "p3" "u2"
                Sample.imageEdit Sample.store store_wf_sample) as [Hno _].
    apply Hno. vm_compute. intros Hin.
    repeat (apply elem_of_cons in Hin as [Hin|Hin]; [discriminate Hin|]).
    by apply elem_of_nil in Hin.
  - destruct (edit_writes_iff_accepted validatorDefault Sample.env "p3" "u2"
                Sample.imageEdit Sample.store store_wf_sample) as [_ Hyes].
    destruct Hyes as (p' & _ & _ & Hw); [vm_compute; apply list_elem_of_here|].
    exact Hw.
Defined.

Lemma router_patch_no_post validator env id user eb st :
  rejects env 0%nat = false → rejects env 1%nat = false →
  postDocs st !! id = None →
  wp (router_patch validator env id user eb)
     (fun _ w =>
        sent w = [{| status := 404;
                     body := JsonMessage ("Post with ID: " +:+ segment env id
                                          +:+ " does not exist in database.") |}])
     (request st).
Proof. intros R0 R1 Hp. unfold router_patch, request. wp_run. done. Qed.

Lemma router_patch_no_user validator env id user eb st post :
  rejects env 0%nat = false → rejects env 1%nat = false →
  postDocs st !! id = Some post → userDocs st !! user = None →
  wp (router_patch validator env id user eb)
     (fun _ w =>
        sent w = [{| status := 404;
                     body := JsonMessage "User does not exist in database." |}])
     (request st).
Proof. intros R0 R1 Hp Hu. unfold router_patch, request. wp_run. done. Qed.

(** X17. When both lookups answer, an edit request for a post that does
    not exist is answered 404 with a message naming the id as the URL
    spells it, whether or not the user exists; for an existing post and an
    unknown user it is answered 404 "User does not exist in database.". *)
Theorem edit_refusals
    (validator : Validator) (env : Env) (id user : Id) (eb : EditBody)
    (st : Store) :
  rejects env 0%nat = false → rejects env 1%nat = false →
  let w := run (router_patch validator env id user eb) st in
  (postDocs st !! id = None →
   sent w = [{| status := 404;
                body := JsonMessage ("Post with ID: " +:+ segment env id
                                     +:+ " does not exist in database.") |}]) ∧
  (is_Some (postDocs st !! id) → userDocs st !! user = None →
   sent w = [{| status := 404;
                body := JsonMessage "User does not exist in database." |}]).
Proof.
  intros R0 R1 w. subst w. split.
  - intros Hp. exact (router_patch_no_post validator env id user eb st R0 R1 Hp).
  - intros [post Hp] Hu.
    exact (router_patch_no_user validator env id user eb st post R0 R1 Hp Hu).
Qed.

Lemma edit_refusals_witness :
  sent (run (router_patch validatorDefault Sample.env "p9" "u9" Sample.edit)
            Sample.store)
  = [{| status := 404;
        body := JsonMessage "Post with ID: p9 does not exist in database." |}].
Proof.
  destruct (edit_refusals validatorDefault Sample.env "p9" "u9" Sample.edit
              Sample.store eq_refl eq_refl) as [Hpost _].
  apply Hpost. reflexivity.
Defined.

(** X18. Whatever happens during an edit request, it changes no
    subreddit, no user and no post other than the one it names. *)
Theorem edit_touches_only_its_post
    (validator : Validator) (env : Env) (id user : Id) (eb : EditBody)
    (st : Store) :
  store_wf st →
  let w := run (router_patch validator env id user eb) st in
  subredditDocs (db w) = subredditDocs st ∧
  userDocs (db w) = userDocs st ∧
  ∀ k, k ≠ id → postDocs (db w) !! k = postDocs st !! k.
Proof.
  intros (Hwp & _ & _) w. subst w.
  destruct (router_patch_stores validator env id user eb st)
    as [(Hdb & _)|(post & p' & Hp & Hid & _ & _ & Hdb & _)];
    unfold run; rewrite Hdb; [done|].
  pose proof (Hwp _ _ Hp) as Hkey. cbn beta in Hkey.
  split_and!; [done | done |]. intros k Hk. cbn.
  rewrite lookup_insert_ne; [done | congruence].
Qed.

Lemma edit_touches_only_its_post_witness :
  store_wf Sample.store ∧
  postDocs (db (run (router_patch validatorDefault Sample.env "p1" "u1"
                                  Sample.edit) Sample.store)) !! "p3"
  = Some Sample.picture.
Proof.
  split; [exact store_wf_sample|].
  destruct (edit_touches_only_its_post validatorDefault Sample.env "p1" "u1"
              Sample.edit Sample.store store_wf_sample) as (_ & _ & Hp).
  rewrite Hp; [reflexivity | discriminate].
Defined.

Lemma router_patch_403 validator env id user eb st :
  wp (router_patch validator env id user eb)
     (fun _ w =>
        403 ∈ statuses w →
        ∃ post vf,
          postDocs st !! id = Some post ∧
          validator (Post.postType post) (eb_textSubmission eb)
                    (eb_linkSubmission eb) (eb_imageSubmission eb) = Valid vf ∧
          Post.postType post ≠ Some "Text" ∧
          Post.postType post ≠ Some "Link" ∧
          Post.postType post ≠ Some "Image" ∧
          db w = st)
     (request st).
Proof.
  unfold router_patch, request. wp_run.
  all: try status_absent.
  intros _.
  repeat match goal with
    | H : strictEq _ _ = false |- _ => apply strictEq_false in H
    end.
  eexists _, _. split_and!; try done; eassumption.
Qed.

(** X19. The edit route answers 403 "Invalid post type." only for a
    stored post whose type is none of Text, Link and Image and whose
    submission the validator has nevertheless accepted; nothing is then
    written. With a validator that refuses every other type, as the
    submission validator does, the route never answers 403. *)
Theorem edit_invalid_type_answer
    (validator : Validator) (env : Env) (id user : Id) (eb : EditBody)
    (st : Store) (blank : string → bool) (normalize : string → string) :
  (403 ∈ statuses (run (router_patch validator env id user eb) st) →
   ∃ post vf,
     postDocs st !! id = Some post ∧
     validator (Post.postType post) (eb_textSubmission eb)
               (eb_linkSubmission eb) (eb_imageSubmission eb) = Valid vf ∧
     Post.postType post ≠ Some "Text" ∧
     Post.postType post ≠ Some "Link" ∧
     Post.postType post ≠ Some "Image" ∧
     db (run (router_patch validator env id user eb) st) = st) ∧
  403 ∉ statuses (run (router_patch (postTypeValidator blank normalize)
                                    env id user eb) st).
Proof.
  split.
  - exact (router_patch_403 validator env id user eb st).
  - intros H403.
    destruct (router_patch_403 (postTypeValidator blank normalize) env id user eb
                st H403) as (post & vf & _ & Hvf & Ht & Hl & Hi & _).
    by rewrite postTypeValidator_unknown in Hvf.
Qed.

Lemma edit_invalid_type_answer_witness :
  sent (run (router_patch validatorLenient Sample.env "p5" "u1" Sample.edit)
            storeWithVideo)
  = [{| status := 403; body := JsonMessage "Invalid post type." |}] ∧
  db (run (router_patch validatorLenient Sample.env "p5" "u1" Sample.edit)
          storeWithVideo)
  = storeWithVideo.
Proof.
  split; [reflexivity|].
  destruct (edit_invalid_type_answer validatorLenient Sample.env "p5" "u1"
              Sample.edit storeWithVideo isEmpty id) as [H403 _].
  destruct H403 as (post & vf & _ & _ & _ & _ & _ & Hdb);
    [vm_compute; apply list_elem_of_here|].
  exact Hdb.
Defined.

Lemma withPost_twice st p : withPost (withPost st p) p = withPost st p.
Proof. unfold withPost. cbn. by rewrite insert_insert_eq. Qed.

(** X20. Editing is idempotent: sending the same edit request a second
    time, with the same behaviour of the database and of the media host,
    leaves the store as the first request left it. *)
Theorem edit_idempotent
    (validator : Validator) (env : Env) (id user : Id) (eb : EditBody)
    (st : Store) :
  store_wf st →
  let once := db (run (router_patch validator env id user eb) st) in
  db (run (router_patch validator env id user eb) once) = once.
Proof.
  intros (Hwp & _ & _) once. subst once.
  destruct (postDocs st !! id) as [post|] eqn:Hp.
  - pose proof (Hwp _ _ Hp) as Hkey. cbn beta in Hkey.
    assert (∀ p1, Post._id p1 = Post._id post →
                  postDocs (withPost st p1) !! id = Some p1) as Hlook.
    { intros p1 E. cbn. rewrite E, Hkey. apply lookup_insert_eq. }
    destruct (router_patch_effect validator env id user eb st post Hp)
      as [[Hdb _]|[_ [(Hty & vf & Hvf & Hdb)|[(Hty & vf & Hvf & Hdb)
                                            |(Hty & url & pid & Hup & Hdb)]]]];
      unfold run in *; rewrite Hdb; [by rewrite Hdb| | |].
    + pose proof (Hlook (Post.set_textSubmission (vfTextSubmission vf) post)
                        eq_refl) as Hp1.
      destruct (router_patch_effect validator env id user eb _ _ Hp1)
        as [[Hdb2 _]|[_ [(_ & vf2 & Hvf2 & Hdb2)|[(Hty2 & _)|(Hty2 & _)]]]];
        [done | | cbn in Hty2; congruence | cbn in Hty2; congruence].
      cbn [Post.postType Post.set_textSubmission] in Hvf2.
      rewrite Hdb2. assert (vf2 = vf) as -> by congruence.
      apply withPost_twice.
    + pose proof (Hlook (Post.set_linkSubmission (vfLinkSubmission vf) post)
                        eq_refl) as Hp1.
      destruct (router_patch_effect validator env id user eb _ _ Hp1)
        as [[Hdb2 _]|[_ [(Hty2 & _)|[(_ & vf2 & Hvf2 & Hdb2)|(Hty2 & _)]]]];
        [done | cbn in Hty2; congruence | | cbn in Hty2; congruence].
      cbn [Post.postType Post.set_linkSubmission] in Hvf2.
      rewrite Hdb2. assert (vf2 = vf) as -> by congruence.
      apply withPost_twice.
    + pose proof (Hlook (Post.set_imageSubmission
                           (Some (UploadedImage url pid)) post) eq_refl) as Hp1.
      destruct (router_patch_effect validator env id user eb _ _ Hp1)
        as [[Hdb2 _]|[_ [(Hty2 & _)|[(Hty2 & _)|(_ & url2 & pid2 & Hup2 & Hdb2)]]]];
        [done | cbn in Hty2; congruence | cbn in Hty2; congruence |].
      rewrite Hdb2. assert (url2 = url ∧ pid2 = pid) as [-> ->]
        by (split; congruence).
      apply withPost_twice.
  - destruct (router_patch_stores validator env id user eb st)
      as [(Hdb & _)|(post & _ & Hp' & _)]; [|congruence].
    unfold run in *. by rewrite !Hdb.
Qed.

Lemma edit_idempotent_witness :
  store_wf Sample.store ∧
  db (run (router_patch validatorDefault Sample.env "p1" "u1" Sample.edit)
          (db (run (router_patch validatorDefault Sample.env "p1" "u1" Sample.edit)
                   Sample.store)))
  = db (run (router_patch validatorDefault Sample.env "p1" "u1" Sample.edit)
            Sample.store) ∧
  db (run (router_patch validatorDefault Sample.env "p1" "u1" Sample.edit)
          Sample.store) ≠ Sample.store.
Proof.
  split; [exact store_wf_sample|]. split.
  - exact (edit_idempotent validatorDefault Sample.env "p1" "u1" Sample.edit
             Sample.store store_wf_sample).
  - intros E. apply (f_equal (fun st => Post.textSubmission <$> postDocs st !! "p1")) in E.
    vm_compute in E. discriminate E.
Defined.

(** X21. An edit request keeps the posts arrays sound, whatever happens:
    if no array named a missing post before, none does afterwards, and if
    every post was listed with its subreddit and its author before, every
    post still is. *)
Theorem edit_keeps_integrity
    (validator : Validator) (env : Env) (id user : Id) (eb : EditBody)
    (st : Store) :
  store_wf st →
  let w := run (router_patch validator env id user eb) st in
  (noDangling st → noDangling (db w)) ∧ (allListed st → allListed (db w)).
Proof.
  intros (Hwp & _ & _) w. subst w.
  destruct (router_patch_stores validator env id user eb st)
    as [(Hdb & _)|(post & p' & Hp & Hid & Hps & Hpa & Hdb & _)];
    unfold run; rewrite Hdb; [done|].
  pose proof (Hwp _ _ Hp) as Hkey. cbn beta in Hkey. split.
  - intros Hnd. apply noDangling_withPost; [done|].
    rewrite Hid, Hkey, Hp. by intros p0 [= <-].
  - intros Hl. apply (allListed_withPost _ _ post); [done | | done | done].
    by rewrite Hid, Hkey.
Qed.

Lemma edit_keeps_integrity_witness :
  (store_wf Sample.store ∧ noDangling Sample.store ∧ allListed Sample.store) ∧
  noDangling (db (run (router_patch validatorDefault Sample.env "p1" "u1"
                                    Sample.edit) Sample.store)) ∧
  allListed (db (run (router_patch validatorDefault Sample.env "p1" "u1"
                                   Sample.edit) Sample.store)).
Proof.
  split; [split_and!; [exact store_wf_sample | exact sample_noDangling
                      | exact sample_allListed]|].
  destruct (edit_keeps_integrity validatorDefault Sample.env "p1" "u1" Sample.edit
              Sample.store store_wf_sample) as [Hnd Hl].
  split; [exact (Hnd sample_noDangling) | exact (Hl sample_allListed)].
Defined.

(** ** The delete route *)

Lemma router_delete_stores env id user st :
  store_wf st →
  wp (router_delete env id user)
     (fun _ w =>
        (db w = st ∧ writes w = [] ∧ 204 ∉ statuses w) ∨
        ∃ post author sub,
          postDocs st !! id = Some post ∧
          userDocs st !! user = Some author ∧
          Post.author post = user ∧
          subredditDocs st !! Post.subreddit post = Some sub ∧
          ((db w = withoutPost st id ∧ 204 ∉ statuses w) ∨
           (db w = withSubreddit (withoutPost st id)
                     (unlistedFrom (segment env id) sub) ∧
            204 ∉ statuses w) ∨
           (db w = withUser
                     (withSubreddit (withoutPost st id)
                        (unlistedFrom (segment env id) sub))
                     (relievedOf (segment env id) author) ∧
            sent w = [{| status := 204; body := NoBody |}])))
     (request st).
Proof.
  intros (Hwp & Hws & Hwu). unfold router_delete, request. wp_run.
  all: try (left; split_and!; [done | done | status_absent]).
  all: right;
    match goal with
    | Hp : postDocs _ !! _ = Some ?p,
      Hu : userDocs _ !! _ = Some ?a,
      Hs : subredditDocs _ !! _ = Some ?t |- _ =>
        pose proof (Hwu _ _ Hu) as Huid; cbn beta in Huid;
        exists p, a, t
    end.
  all: split_and!; try done; try congruence.
  all: first [ left; split; [reflexivity | status_absent]
             | right; left; split; [reflexivity | status_absent]
             | right; right; split; reflexivity ].
Qed.

(** X22. Whatever happens during a delete request, it changes no post
    other than the one it names, no subreddit other than that post's and no
    user other than the requester; and it never changes the requester's
    username or post karma: the point of karma given at creation is not
    taken back. *)
Theorem delete_touches_only_its_documents
    (env : Env) (id user : Id) (st : Store) :
  store_wf st →
  let w := run (router_delete env id user) st in
  (∀ k, k ≠ id → postDocs (db w) !! k = postDocs st !! k) ∧
  (∀ k, (∀ post, postDocs st !! id = Some post → k ≠ Post.subreddit post) →
        subredditDocs (db w) !! k = subredditDocs st !! k) ∧
  (∀ k, k ≠ user → userDocs (db w) !! k = userDocs st !! k) ∧
  (User.username <$> (userDocs (db w) !! user)
   = User.username <$> (userDocs st !! user)) ∧
  (User.postKarma <$> (userDocs (db w) !! user)
   = User.postKarma <$> (userDocs st !! user)).
Proof.
  intros Hwf w. subst w.
  destruct (router_delete_stores env id user st Hwf)
    as [(Hdb & _)|(post & author & sub & Hp & Hu & Hpa & Hs & Hdb)];
    unfold run; [by rewrite Hdb|].
  destruct Hwf as (_ & Hws & Hwu).
  pose proof (Hws _ _ Hs) as Hsid. pose proof (Hwu _ _ Hu) as Huid.
  cbn beta in Hsid, Huid.
  destruct Hdb as [[-> _]|[[-> _]|[-> _]]]; cbn; rewrite ?Hsid, ?Huid.
  - split_and!; try done. intros k Hk. by rewrite lookup_delete_ne.
  - split_and!; try done.
    + intros k Hk. by rewrite lookup_delete_ne.
    + intros k Hk. rewrite lookup_insert_ne; [done|]. intros <-. by apply (Hk post).
  - split_and!.
    + intros k Hk. by rewrite lookup_delete_ne.
    + intros k Hk. rewrite lookup_insert_ne; [done|]. intros <-. by apply (Hk post).
    + intros k Hk. by rewrite lookup_insert_ne.
    + by rewrite lookup_insert_eq, Hu.
    + by rewrite lookup_insert_eq, Hu.
Qed.

Lemma delete_touches_only_its_documents_witness :
  store_wf Sample.store ∧
  postDocs (db (run (router_delete Sample.env "p1" "u1") Sample.store)) !! "p3"
  = Some Sample.picture ∧
  User.postKarma <$>
    (userDocs (db (run (router_delete Sample.env "p1" "u1") Sample.store)) !! "u1")
  = Some 1.
Proof.
  split; [exact store_wf_sample|].
  destruct (delete_touches_only_its_documents Sample.env "p1" "u1" Sample.store
              store_wf_sample) as (Hp & _ & _ & _ & Hk).
  split; [rewrite Hp; [reflexivity | discriminate] | rewrite Hk; reflexivity].
Defined.

Lemma router_delete_no_post env id user st :
  rejects env 0%nat = false → rejects env 1%nat = false →
  postDocs st !! id = None →
  wp (router_delete env id user)
     (fun _ w =>
        sent w = [{| status := 404;
                     body := JsonMessage ("Post with ID: " +:+ segment env id
                                          +:+ " does not exist in database.") |}] ∧
        db w = st)
     (request st).
Proof. intros R0 R1 Hp. unfold router_delete, request. wp_run. done. Qed.

(** X23. A post can be deleted only once: after a delete request answered
    204, the same request again (with lookups that answer) is answered 404
    with a message naming the id as the URL spells it, and changes
    nothing. *)
Theorem delete_twice (env env' : Env) (id user : Id) (st : Store) :
  store_wf st →
  204 ∈ statuses (run (router_delete env id user) st) →
  rejects env' 0%nat = false → rejects env' 1%nat = false →
  let once := db (run (router_delete env id user) st) in
  sent (run (router_delete env' id user) once)
  = [{| status := 404;
        body := JsonMessage ("Post with ID: " +:+ segment env' id
                             +:+ " does not exist in database.") |}] ∧
  db (run (router_delete env' id user) once) = once.
Proof.
  intros Hwf H204 R0 R1 once. subst once.
  apply (router_delete_no_post env' id user _ R0 R1).
  destruct (router_delete_stores env id user st Hwf)
    as [(_ & _ & Hno)|(post & author & sub & _ & _ & _ & _ & Hdb)]; [done|].
  destruct Hdb as [[_ Hno]|[[_ Hno]|[Hdb _]]]; [done | done |].
  unfold run. rewrite Hdb. cbn. apply lookup_delete_eq.
Qed.

Lemma delete_twice_witness :
  store_wf Sample.store ∧
  sent (run (router_delete Sample.env "p1" "u1")
            (db (run (router_delete Sample.env "p1" "u1") Sample.store)))
  = [{| status := 404;
        body := JsonMessage "Post with ID: p1 does not exist in database." |}].
Proof.
  split; [exact store_wf_sample|].
  destruct (delete_twice Sample.env Sample.env "p1" "u1" Sample.store
              store_wf_sample) as [Hsent _];
    [vm_compute; apply list_elem_of_here | reflexivity | reflexivity |].
  exact Hsent.
Defined.

Lemma filter_ne_absent (x : Id) (l : list Id) :
  x ∉ l → filter (fun p => p ≠ x) l = l.
Proof.
  induction l as [|y l IH]; [done|].
  intros [Hne Hl]%not_elem_of_cons.
  rewrite filter_cons_True by congruence. by rewrite IH.
Qed.

Lemma filter_ne_appended (x : Id) (l : list Id) :
  x ∉ l → filter (fun p => p ≠ x) (l ++ [x]) = l.
Proof.
  intros Hl. rewrite filter_app, filter_ne_absent by done.
  rewrite filter_cons_False by (intros H; by apply H).
  apply app_nil_r.
Qed.

Lemma unlistedFrom_listedIn pid target :
  pid ∉ Subreddit.posts target → unlistedFrom pid (listedIn pid target) = target.
Proof.
  intros Hl. destruct target as [i n ps]. unfold unlistedFrom, listedIn. cbn in *.
  by rewrite filter_ne_appended.
Qed.

Lemma relievedOf_creditedWith pid author :
  pid ∉ User.posts author →
  relievedOf pid (creditedWith pid author)
  = User.set_postKarma (User.postKarma author + 1) author.
Proof.
  intros Hl. destruct author as [i n ps k]. unfold relievedOf, creditedWith.
  cbn in *. by rewrite filter_ne_appended.
Qed.

(** X24. Creating a post and then deleting it gives back the store: after
    a create request answered 201 and a delete request for the new post by
    the same user, through a URL that spells the id as it is stored,
    answered 204, the posts and the subreddits are exactly what they were
    before the create, and so are the users, except that the author has
    kept the point of karma. *)
Theorem create_then_delete
    (validator : Validator) (env env' : Env) (user : Id) (cb : CreateBody)
    (st : Store) :
  store_wf st → noDangling st →
  postDocs st !! Post._id (blankPost env) = None →
  let created := db (run (router_post validator env user cb) st) in
  let deleted :=
    run (router_delete env' (Post._id (blankPost env)) user) created in
  201 ∈ statuses (run (router_post validator env user cb) st) →
  segment env' (Post._id (blankPost env)) = Post._id (blankPost env) →
  204 ∈ statuses deleted →
  postDocs (db deleted) = postDocs st ∧
  subredditDocs (db deleted) = subredditDocs st ∧
  ∃ author,
    userDocs st !! user = Some author ∧
    userDocs (db deleted)
    = <[user := User.set_postKarma (User.postKarma author + 1) author]>
        (userDocs st).
Proof.
  intros Hwf [Hnds Hndu] Hfresh created deleted H201 Hseg H204.
  subst deleted created.
  assert (store_wf (db (run (router_post validator env user cb) st))) as Hwf1
    by exact (router_post_wf validator env user cb st Hwf).
  destruct (router_post_stores validator env user cb st Hwf)
    as [[_ Hno]|(author & target & sid & p & Hu & Hsid & Hs & Hid & Hpa & Hps & Hdb)];
    [done|].
  destruct Hdb as [[_ Hno]|[[_ Hno]|Hdb]]; [done | done |].
  destruct Hwf as (_ & Hws & Hwu).
  pose proof (Hws _ _ Hs) as Hsid'. pose proof (Hwu _ _ Hu) as Huid.
  cbn beta in Hsid', Huid.
  assert (Post._id (blankPost env) ∉ Subreddit.posts target) as Hnotin_s.
  { intros Hin. destruct (Hnds _ _ _ Hs Hin) as (q & Hq & _). congruence. }
  assert (Post._id (blankPost env) ∉ User.posts author) as Hnotin_u.
  { intros Hin. destruct (Hndu _ _ _ Hu Hin) as (q & Hq & _). congruence. }
  unfold run in *. rewrite Hdb in *.
  destruct (router_delete_stores env' (Post._id (blankPost env)) user _ Hwf1)
    as [(_ & _ & Hno)|(post & author' & sub & Hp' & Hu' & _ & Hs' & Hdb')];
    [done|].
  destruct Hdb' as [[_ Hno]|[[_ Hno]|[Hdb' _]]]; [done | done |].
  rewrite Hseg in Hdb'.
  cbn in Hp', Hu', Hs'. rewrite Hid, Hsid', Huid in *.
  rewrite lookup_insert_eq in Hp'. rewrite lookup_insert_eq in Hu'.
  injection Hp' as <-. injection Hu' as <-.
  rewrite Hps, lookup_insert_eq in Hs'. injection Hs' as <-.
  rewrite Hdb'. cbn. rewrite Hid, Hsid', Huid. split_and!.
  - by rewrite delete_insert_eq, delete_id.
  - rewrite insert_insert_eq, unlistedFrom_listedIn by done. by apply insert_id.
  - exists author. split; [done|].
    by rewrite insert_insert_eq, relievedOf_creditedWith.
Qed.

Lemma create_then_delete_witness :
  (store_wf Sample.store ∧ noDangling Sample.store ∧
   postDocs Sample.store !! "p2" = None) ∧
  postDocs (db (run (router_delete Sample.env "p2" "u2")
                    (db (run (router_post validatorDefault Sample.env "u2"
                                          Sample.textPost) Sample.store))))
  = postDocs Sample.store ∧
  subredditDocs (db (run (router_delete Sample.env "p2" "u2")
                         (db (run (router_post validatorDefault Sample.env "u2"
                                               Sample.textPost) Sample.store))))
  = subredditDocs Sample.store.
Proof.
  split; [split_and!; [exact store_wf_sample | exact sample_noDangling | reflexivity]|].
  destruct (create_then_delete validatorDefault Sample.env Sample.env "u2"
              Sample.textPost Sample.store store_wf_sample sample_noDangling)
    as (Hp & Hs & _);
    [reflexivity | vm_compute; apply list_elem_of_here | reflexivity
    | vm_compute; apply list_elem_of_here |].
  split; [exact Hp | exact Hs].
Defined.

Lemma router_delete_then_failure env id user st post author sub :
  rejects env 0%nat = false → rejects env 1%nat = false →
  rejects env 2%nat = false → rejects env 3%nat = false →
  rejects env 4%nat = true →
  postDocs st !! id = Some post → userDocs st !! user = Some author →
  Post.author post = User._id author →
  subredditDocs st !! Post.subreddit post = Some sub →
  wp (router_delete env id user)
     (fun c w =>
        thrown c = Some DbFailure ∧ sent w = [] ∧
        writes w = [PostDeleted id] ∧ db w = withoutPost st id)
     (request st).
Proof.
  intros R0 R1 R2 R3 R4 Hp Hu Ha Hs. unfold router_delete, request. wp_run.
  all: simplify_eq; done.
Qed.

(** X25. The delete route is not transactional. When the post has been
    deleted and the save of the subreddit is then rejected, the request
    ends with that failure and no answer; the post is gone, but the
    subreddit and the author still carry its id: a posts array that named
    the post now names a post that does not exist. *)
Theorem delete_not_transactional
    (env : Env) (id user : Id) (st : Store)
    (post : Post.t) (author : User.t) (sub : Subreddit.t) :
  rejects env 0%nat = false → rejects env 1%nat = false →
  rejects env 2%nat = false → rejects env 3%nat = false →
  rejects env 4%nat = true →
  postDocs st !! id = Some post → userDocs st !! user = Some author →
  Post.author post = User._id author →
  subredditDocs st !! Post.subreddit post = Some sub →
  let w := run (router_delete env id user) st in
  raised (router_delete env id user) st = Some DbFailure ∧
  sent w = [] ∧
  writes w = [PostDeleted id] ∧
  postDocs (db w) !! id = None ∧
  subredditDocs (db w) = subredditDocs st ∧
  userDocs (db w) = userDocs st ∧
  (id ∈ Subreddit.posts sub → ¬ noDangling (db w)).
Proof.
  intros R0 R1 R2 R3 R4 Hp Hu Ha Hs w. subst w.
  destruct (router_delete_then_failure env id user st post author sub
              R0 R1 R2 R3 R4 Hp Hu Ha Hs) as (Hc & Hsent & Hw & Hdb).
  unfold run. rewrite Hdb. split_and!; try done.
  - cbn. apply lookup_delete_eq.
  - intros Hin [Hsub _]. destruct (Hsub _ _ _ Hs Hin) as (q & Hq & _).
    cbn in Hq. by rewrite lookup_delete_eq in Hq.
Qed.

Lemma delete_not_transactional_witness :
  let w := run (router_delete envUnlistFails "p1" "u1") Sample.store in
  postDocs (db w) !! "p1" = None ∧
  subredditDocs (db w) = subredditDocs Sample.store ∧
  ¬ noDangling (db w).
Proof.
  destruct (delete_not_transactional envUnlistFails "p1" "u1" Sample.store
              Sample.hello Sample.alice Sample.rocq)
    as (_ & _ & _ & Hp & Hs & _ & Hd);
    [reflexivity | reflexivity | reflexivity | reflexivity | reflexivity
    | reflexivity | reflexivity | reflexivity | reflexivity |].
  split_and!; [exact Hp | exact Hs |].
  apply Hd. apply list_elem_of_here.
Defined.

(** X26. A delete request keeps every post listed, whatever fails on the
    way: if every post was in the posts array of its subreddit and of its
    author before, every post that is left still is, also when the request
    breaks off between its writes (the post is removed before the arrays
    are shortened). The URL segment is a spelling of the id of the post: it
    is that id as stored, or the id of no stored post. *)
Theorem delete_keeps_posts_listed (env : Env) (id user : Id) (st : Store) :
  store_wf st → allListed st →
  segment env id = id ∨ postDocs st !! segment env id = None →
  allListed (db (run (router_delete env id user) st)).
Proof.
  intros Hwf Hl Hseg.
  destruct (router_delete_stores env id user st Hwf)
    as [(Hdb & _)|(post & author & sub & Hp & Hu & Hpa & Hs & Hdb)];
    unfold run; [by rewrite Hdb|].
  destruct Hwf as (_ & Hws & Hwu).
  pose proof (Hws _ _ Hs) as Hsid. pose proof (Hwu _ _ Hu) as Huid.
  cbn beta in Hsid, Huid.
  assert (allListed (withoutPost st id)) as H1 by by apply allListed_withoutPost.
  assert (postDocs (withoutPost st id) !! segment env id = None) as Hgone.
  { cbn. apply lookup_delete_None. destruct Hseg; auto. }
  assert (allListed (withSubreddit (withoutPost st id)
                       (unlistedFrom (segment env id) sub))) as H2.
  { apply allListed_unlistedFrom; [done | done |]. cbn. by rewrite Hsid. }
  destruct Hdb as [[-> _]|[[-> _]|[-> _]]]; [done | done |].
  apply allListed_relievedOf; [done | done |].
  cbn. by rewrite Huid.
Qed.

Lemma delete_keeps_posts_listed_witness :
  (store_wf Sample.store ∧ allListed Sample.store ∧
   segment envUnlistFails "p1" = "p1") ∧
  allListed (db (run (router_delete envUnlistFails "p1" "u1") Sample.store)).
Proof.
  split; [split_and!; [exact store_wf_sample | exact sample_allListed
                      | reflexivity]|].
  apply (delete_keeps_posts_listed envUnlistFails "p1" "u1" Sample.store
           store_wf_sample sample_allListed).
  left. reflexivity.
Defined.

Lemma shouted_noDangling : noDangling Shouted.store.
Proof.
  split; unfold Shouted.store; cbn [subredditDocs userDocs postDocs].
  - intros sid s pid [<- <-]%lookup_singleton_Some Hin.
    cbn [Subreddit.posts Shouted.board] in Hin.
    apply list_elem_of_singleton in Hin as ->. by exists Shouted.post.
  - intros uid u pid [<- <-]%lookup_singleton_Some Hin.
    cbn [User.posts Shouted.author] in Hin.
    apply list_elem_of_singleton in Hin as ->. by exists Shouted.post.
Qed.

(** X27. A delete request answered 204, through a URL that spells the id
    as it is stored, leaves no dangling id: if no posts array named a
    missing post before, none does afterwards; the id of the deleted post
    is gone from every array. Through a URL that spells the id otherwise,
    the arrays keep the id: where the subreddit listed the post, its array
    now names a post that does not exist. *)
Theorem delete_leaves_no_dangling_id (env : Env) (id user : Id) (st : Store) :
  store_wf st → noDangling st →
  204 ∈ statuses (run (router_delete env id user) st) →
  (segment env id = id → noDangling (db (run (router_delete env id user) st))) ∧
  (segment env id ≠ id →
   ∀ post sub,
     postDocs st !! id = Some post →
     subredditDocs st !! Post.subreddit post = Some sub →
     id ∈ Subreddit.posts sub →
     ¬ noDangling (db (run (router_delete env id user) st))).
Proof.
  intros Hwf Hnd H204.
  destruct (router_delete_stores env id user st Hwf)
    as [(_ & _ & Hno)|(post & author & sub & Hp & Hu & Hpa & Hs & Hdb)]; [done|].
  destruct Hdb as [[_ Hno]|[[_ Hno]|[Hdb _]]]; [done | done |].
  destruct Hwf as (_ & Hws & Hwu).
  pose proof (Hws _ _ Hs) as Hsid. pose proof (Hwu _ _ Hu) as Huid.
  cbn beta in Hsid, Huid.
  unfold run. rewrite Hdb. split.
  - intros ->.
    apply (noDangling_deleted _ _ post); [done | done | congruence | congruence
                                         | by rewrite Hsid | by rewrite Huid].
  - intros Hne post' sub' Hp' Hs' Hin [Hsub _].
    assert (post' = post) as -> by congruence.
    assert (sub' = sub) as -> by congruence.
    destruct (Hsub (Subreddit._id sub) (unlistedFrom (segment env id) sub) id)
      as (q & Hq & _).
    + cbn. destruct (decide (User._id author = Subreddit._id sub)); cbn;
        apply lookup_insert_eq.
    + cbn. apply list_elem_of_filter. by split.
    + cbn in Hq. by rewrite lookup_delete_eq in Hq.
Qed.

Lemma delete_leaves_no_dangling_id_witness :
  (store_wf Sample.store ∧ noDangling Sample.store) ∧
  noDangling (db (run (router_delete Sample.env "p1" "u1") Sample.store)) ∧
  (noDangling Shouted.store ∧
   segment Shouted.env Shouted.postId ≠ Shouted.postId) ∧
  ¬ noDangling (db (run (router_delete Shouted.env Shouted.postId Shouted.userId)
                        Shouted.store)).
Proof.
  split; [split; [exact store_wf_sample | exact sample_noDangling]|].
  split.
  - apply (delete_leaves_no_dangling_id Sample.env "p1" "u1" Sample.store
             store_wf_sample sample_noDangling);
      [vm_compute; apply list_elem_of_here | reflexivity].
  - split; [split; [exact shouted_noDangling | discriminate]|].
    assert (store_wf Shouted.store) as Hwf
      by (apply (bool_decide_unpack _); vm_compute; exact I).
    destruct (delete_leaves_no_dangling_id Shouted.env Shouted.postId
                Shouted.userId Shouted.store Hwf shouted_noDangling)
      as [_ Hkept]; [vm_compute; apply list_elem_of_here|].
    apply (Hkept ltac:(discriminate) Shouted.post Shouted.board);
      [reflexivity | reflexivity | apply list_elem_of_here].
Defined.

Lemma router_delete_no_subreddit env id user st post author :
  rejects env 0%nat = false → rejects env 1%nat = false →
  rejects env 2%nat = false →
  postDocs st !! id = Some post → userDocs st !! user = Some author →
  Post.author post = User._id author →
  subredditDocs st !! Post.subreddit post = None →
  wp (router_delete env id user)
     (fun c w => thrown c = Some TypeError ∧ sent w = [] ∧
                 writes w = [] ∧ db w = st)
     (request st).
Proof.
  intros R0 R1 R2 Hp Hu Ha Hs. unfold router_delete, request. wp_run.
  all: simplify_eq; done.
Qed.

(** X28. When the post and the requester exist, the requester is the
    author and the three lookups answer, but the post's subreddit does not
    exist, the delete route does not answer 404: reading [subreddit._id] on
    [null] for the message throws a TypeError, no answer is sent and
    nothing is written. *)
Theorem delete_without_subreddit_throws
    (env : Env) (id user : Id) (st : Store) (post : Post.t) (author : User.t) :
  rejects env 0%nat = false → rejects env 1%nat = false →
  rejects env 2%nat = false →
  postDocs st !! id = Some post → userDocs st !! user = Some author →
  Post.author post = User._id author →
  subredditDocs st !! Post.subreddit post = None →
  let w := run (router_delete env id user) st in
  raised (router_delete env id user) st = Some TypeError ∧
  sent w = [] ∧ writes w = [] ∧ db w = st.
Proof.
  intros R0 R1 R2 Hp Hu Ha Hs.
  exact (router_delete_no_subreddit env id user st post author
           R0 R1 R2 Hp Hu Ha Hs).
Qed.

Lemma delete_without_subreddit_throws_witness :
  raised (router_delete Sample.env "p1" "u1") storeWithoutSubreddit
  = Some TypeError ∧
  sent (run (router_delete Sample.env "p1" "u1") storeWithoutSubreddit) = [].
Proof.
  destruct (delete_without_subreddit_throws Sample.env "p1" "u1"
              storeWithoutSubreddit Sample.hello Sample.alice)
    as (Hr & Hs & _);
    [reflexivity | reflexivity | reflexivity | reflexivity | reflexivity
    | reflexivity | reflexivity |].
  split; [exact Hr | exact Hs].
Defined.

(** ** Requests that go through *)

Lemma router_post_succeeds validator env user cb st vf author sid target :
  store_wf st → reliable env →
  validator (cb_postType cb) (cb_textSubmission cb) (cb_linkSubmission cb)
            (cb_imageSubmission cb) = Valid vf →
  userDocs st !! user = Some author →
  cb_subreddit cb = Some sid → subredditDocs st !! sid = Some target →
  (cb_postType cb = Some "Image" →
   ∃ url public_id, upload env (cb_imageSubmission cb) = Uploaded url public_id) →
  wp (router_post validator env user cb)
     (fun c w =>
        thrown c = None ∧ statuses w = [201] ∧
        writes w = [PostSaved (Post._id (blankPost env));
                    SubredditSaved sid; UserSaved user])
     (request st).
Proof.
  intros (Hwp & Hws & Hwu) Hrel Hvf Hu Hsid Hs Hup.
  unfold router_post, request. wp_run.
  all: try by_reliable Hrel.
  all: try (rewrite Hsid in *; congruence).
  all: try (match goal with
            | H : strictEq _ _ = true |- _ =>
                apply strictEq_true in H; destruct (Hup H) as (? & ? & ?);
                congruence
            end).
  all: rewrite Hsid in *; doc_simpl; wf_keys Hwp Hws Hwu; done.
Qed.

(** X29. A create request goes through when nothing stands in its way:
    with a database that answers, a submission the validator accepts, an
    existing user and an existing subreddit (and, for an Image post, a media
    host that accepts the upload), the request is answered 201 and nothing
    else, does not throw, and has written the post, then the subreddit,
    then the user. *)
Theorem create_succeeds
    (validator : Validator) (env : Env) (user : Id) (cb : CreateBody)
    (st : Store) (vf : ValidatedFields) (author : User.t) (sid : Id)
    (target : Subreddit.t) :
  store_wf st → reliable env →
  validator (cb_postType cb) (cb_textSubmission cb) (cb_linkSubmission cb)
            (cb_imageSubmission cb) = Valid vf →
  userDocs st !! user = Some author →
  cb_subreddit cb = Some sid → subredditDocs st !! sid = Some target →
  (cb_postType cb = Some "Image" →
   ∃ url public_id, upload env (cb_imageSubmission cb) = Uploaded url public_id) →
  raised (router_post validator env user cb) st = None ∧
  statuses (run (router_post validator env user cb) st) = [201] ∧
  writes (run (router_post validator env user cb) st)
  = [PostSaved (Post._id (blankPost env)); SubredditSaved sid; UserSaved user].
Proof.
  intros Hwf Hrel Hvf Hu Hsid Hs Hup.
  exact (router_post_succeeds validator env user cb st vf author sid target
           Hwf Hrel Hvf Hu Hsid Hs Hup).
Qed.

Lemma create_succeeds_witness :
  (store_wf Sample.store ∧ reliable Sample.env) ∧
  statuses (run (router_post validatorDefault Sample.env "u2" Sample.imagePost)
                Sample.store) = [201] ∧
  writes (run (router_post validatorDefault Sample.env "u2" Sample.imagePost)
              Sample.store)
  = [PostSaved "p2"; SubredditSaved "s1"; UserSaved "u2"].
Proof.
  split; [split; [exact store_wf_sample | intros n; reflexivity]|].
  destruct (create_succeeds validatorDefault Sample.env "u2" Sample.imagePost
              Sample.store
              {| vfPostType := None; vfTextSubmission := None;
                 vfLinkSubmission := None;
                 vfImageSubmission := Some "data:image/png" |}
              Sample.bob "s1" Sample.rocq)
    as (_ & Hs & Hw);
    [exact store_wf_sample | intros n; reflexivity | reflexivity | reflexivity
    | reflexivity | reflexivity
    | intros _; exists "http://img/1", "img1"; reflexivity |].
  split; [exact Hs | exact Hw].
Defined.

Lemma router_patch_succeeds validator env id user eb st post vf :
  reliable env → updatedAtIsDate env = false →
  postDocs st !! id = Some post → is_Some (userDocs st !! user) →
  (∀ author, userDocs st !! user = Some author →
             Post.author post = User._id author) →
  validator (Post.postType post) (eb_textSubmission eb) (eb_linkSubmission eb)
            (eb_imageSubmission eb) = Valid vf →
  (Post.postType post = Some "Text" ∨ Post.postType post = Some "Link" ∨
   Post.postType post = Some "Image" ∧
   ∃ url public_id, upload env (eb_imageSubmission eb) = Uploaded url public_id) →
  wp (router_patch validator env id user eb)
     (fun c w => thrown c = None ∧ statuses w = [202])
     (request st).
Proof.
  intros Hrel Hschema Hp [author Hu] Ha Hvf Hty.
  unfold router_patch, request. wp_run.
  all: try by_reliable Hrel.
  all: try done.
  all: simplify_eq.
  all: try (match goal with Hne : Post.author _ ≠ _ |- _ =>
              by destruct Hne; apply Ha end).
  all: repeat match goal with
         | H : strictEq _ _ = false |- _ => apply strictEq_false in H
         | H : strictEq _ _ = true |- _ => apply strictEq_true in H
         end.
  all: destruct Hty as [?|[?|(? & ? & ? & ?)]]; congruence.
Qed.

Lemma router_patch_save_rejected validator env id user eb st post vf :
  reliable env → updatedAtIsDate env = true →
  postDocs st !! id = Some post → is_Some (userDocs st !! user) →
  (∀ author, userDocs st !! user = Some author →
             Post.author post = User._id author) →
  validator (Post.postType post) (eb_textSubmission eb) (eb_linkSubmission eb)
            (eb_imageSubmission eb) = Valid vf →
  (Post.postType post = Some "Text" ∨ Post.postType post = Some "Link" ∨
   Post.postType post = Some "Image" ∧
   ∃ url public_id, upload env (eb_imageSubmission eb) = Uploaded url public_id) →
  wp (router_patch validator env id user eb)
     (fun c w => thrown c = Some CastError ∧ sent w = [] ∧ db w = st)
     (request st).
Proof.
  intros Hrel Hschema Hp [author Hu] Ha Hvf Hty.
  unfold router_patch, request. wp_run.
  all: try by_reliable Hrel.
  all: try done.
  all: simplify_eq.
  all: try (match goal with Hne : Post.author _ ≠ _ |- _ =>
              by destruct Hne; apply Ha end).
  all: repeat match goal with
         | H : strictEq _ _ = false |- _ => apply strictEq_false in H
         | H : strictEq _ _ = true |- _ => apply strictEq_true in H
         end.
  all: destruct Hty as [?|[?|(? & ? & ? & ?)]]; congruence.
Qed.

Lemma router_delete_succeeds env id user st post author sub :
  store_wf st → reliable env →
  postDocs st !! id = Some post → userDocs st !! user = Some author →
  Post.author post = user →
  subredditDocs st !! Post.subreddit post = Some sub →
  wp (router_delete env id user)
     (fun c w =>
        thrown c = None ∧ sent w = [{| status := 204; body := NoBody |}] ∧
        writes w = [PostDeleted id; SubredditSaved (Post.subreddit post);
                    UserSaved user])
     (request st).
Proof.
  intros (Hwp & Hws & Hwu) Hrel Hp Hu Ha Hs.
  pose proof (Hwu _ _ Hu) as Huid. cbn beta in Huid.
  unfold router_delete, request. wp_run.
  all: try by_reliable Hrel.
  all: simplify_eq; try done.
  doc_simpl. wf_keys Hwp Hws Hwu. done.
Qed.

(** X30. The author's requests go through, but for the time of edit: with
    a database that answers, an edit of an existing Text, Link or (with a
    media host that accepts) Image post by its author with a submission the
    validator accepts is answered 202 and nothing else where the schema has
    no [updatedAt] path; where the schema declares [updatedAt] as a Date,
    the save is rejected with the cast error, no answer is sent and the
    store is as it was. A delete of an existing post, whose subreddit
    exists, by its author is answered 204 with no body, after deleting the
    post, then saving the subreddit, then the user. *)
Theorem author_requests_succeed
    (validator : Validator) (env : Env) (id user : Id) (eb : EditBody)
    (st : Store) (post : Post.t) (author : User.t) :
  store_wf st → reliable env →
  postDocs st !! id = Some post → userDocs st !! user = Some author →
  Post.author post = user →
  (∀ vf,
     validator (Post.postType post) (eb_textSubmission eb) (eb_linkSubmission eb)
               (eb_imageSubmission eb) = Valid vf →
     (Post.postType post = Some "Text" ∨ Post.postType post = Some "Link" ∨
      Post.postType post = Some "Image" ∧
      ∃ url public_id,
        upload env (eb_imageSubmission eb) = Uploaded url public_id) →
     (updatedAtIsDate env = false →
      raised (router_patch validator env id user eb) st = None ∧
      statuses (run (router_patch validator env id user eb) st) = [202]) ∧
     (updatedAtIsDate env = true →
      raised (router_patch validator env id user eb) st = Some CastError ∧
      sent (run (router_patch validator env id user eb) st) = [] ∧
      db (run (router_patch validator env id user eb) st) = st)) ∧
  (∀ sub,
     subredditDocs st !! Post.subreddit post = Some sub →
     raised (router_delete env id user) st = None ∧
     sent (run (router_delete env id user) st)
     = [{| status := 204; body := NoBody |}] ∧
     writes (run (router_delete env id user) st)
     = [PostDeleted id; SubredditSaved (Post.subreddit post); UserSaved user]).
Proof.
  intros Hwf Hrel Hp Hu Ha. split.
  - intros vf Hvf Hty.
    assert (∀ author', userDocs st !! user = Some author' →
                       Post.author post = User._id author') as Hauthor.
    { intros author' Hu'. destruct Hwf as (_ & _ & Hwu).
      pose proof (Hwu _ _ Hu') as Huid. cbn beta in Huid. congruence. }
    split; intros Hschema.
    + by apply (router_patch_succeeds validator env id user eb st post vf).
    + by apply (router_patch_save_rejected validator env id user eb st post vf).
  - intros sub Hs.
    exact (router_delete_succeeds env id user st post author sub
             Hwf Hrel Hp Hu Ha Hs).
Qed.

Lemma author_requests_succeed_witness :
  (store_wf Sample.store ∧ reliable Sample.env) ∧
  statuses (run (router_patch validatorDefault Sample.env "p1" "u1" Sample.edit)
                Sample.store) = [202] ∧
  sent (run (router_delete Sample.env "p1" "u1") Sample.store)
  = [{| status := 204; body := NoBody |}].
Proof.
  split; [split; [exact store_wf_sample | intros n; reflexivity]|].
  destruct (author_requests_succeed validatorDefault Sample.env "p1" "u1"
              Sample.edit Sample.store Sample.hello Sample.alice)
    as [Hedit Hdelete];
    [exact store_wf_sample | intros n; reflexivity | reflexivity | reflexivity
    | reflexivity |].
  split.
  - destruct (Hedit _ eq_refl) as [Hok _]; [left; reflexivity|].
    destruct (Hok eq_refl) as [_ Hs]. exact Hs.
  - destruct (Hdelete Sample.rocq eq_refl) as (_ & Hs & _). exact Hs.
Defined.
